(** * DAOReputationPortabilityFHE: batch lifecycle, confidential aggregation
      and oracle callback

    A shallow embedding of the Solidity contract [DAOReputationPortabilityFHE]
    and the properties of its batch / submission / disclosure protocol.

    - [uint256], [address], [bytes32] and ciphertext handles are integers
      ([Z]); the checked arithmetic of Solidity 0.8 is written out with
      [checked_add] (overflow reverts with [Panic 0x11]).
    - Solidity mappings are finite maps ([gmap]) read with the type's zero
      value as default, as a storage read does.
    - A transaction is a function from the pre-state to [Ok (post, events)] or
      [Revert e]; a reverted call leaves the pre-state in place ([exec]).
    - The FHE library, keccak256, the decryption oracle and the KMS signature
      check are external to the contract: they are the fields of the class
      [Capabilities], and everything is stated for an arbitrary instance. *)

From stdpp Require Import gmap strings list.
From Stdlib Require Import ZArith Lia.

Open Scope Z_scope.

(** ** Machine integers *)

Definition MAX_UINT256 : Z := 2 ^ 256 - 1.

Definition MAX_UINT32 : Z := 2 ^ 32 - 1.

(** ** Storage structs *)

Module ReputationBatch.

Record t := mk {
  batchId : Z;
  isOpen : bool;
  reputationSum : Z;
  submissionCount : Z
}.

(** The value a storage read returns for a key that was never written. *)
Definition zero : t := mk 0 false 0 0.

Definition with_isOpen (b : t) (v : bool) : t :=
  mk (batchId b) v (reputationSum b) (submissionCount b).

Definition with_submissionCount (b : t) (v : Z) : t :=
  mk (batchId b) (isOpen b) (reputationSum b) v.

End ReputationBatch.

Module ReputationSubmission.

Record t := mk {
  encryptedReputation : Z;
  provider : Z;
  batchId : Z
}.

End ReputationSubmission.

Module DecryptionContext.

Record t := mk {
  batchId : Z;
  stateHash : Z;
  processed : bool
}.

Definition zero : t := mk 0 0 false.

Definition with_processed (c : t) (v : bool) : t :=
  mk (batchId c) (stateHash c) v.

End DecryptionContext.

(** ** Errors and events *)

Inductive Error :=
| NotOwner
| NotProvider
| PausedState
| CooldownActive
| BatchNotOpen
| InvalidBatch
| ReplayAttempt
| StateMismatch
| InvalidProof
| AlreadyInitialized
| NotInitialized
| ErrorString (reason : string) (* require(c, "...") and revert("...") *)
| Panic (code : Z)              (* checked arithmetic: 0x11 *)
| DecodeFailure.                (* abi.decode on a malformed payload *)

Inductive Event :=
| OwnershipTransferred (previousOwner newOwner : Z)
| ProviderAdded (provider : Z)
| ProviderRemoved (provider : Z)
| CooldownSet (cooldownSeconds : Z)
| Paused (account : Z)
| Unpaused (account : Z)
| BatchOpened (batchId : Z)
| BatchClosed (batchId : Z)
| ReputationSubmitted (provider batchId submissionIndex : Z)
| DecryptionRequested (requestId batchId : Z)
| DecryptionCompleted (requestId batchId totalReputation averageReputation : Z).

Inductive Result (A : Type) :=
| Ok (a : A)
| Revert (e : Error).

Arguments Ok {A} a.
Arguments Revert {A} e.

Definition bind {A B : Type} (c : Result A) (k : A -> Result B) : Result B :=
  match c with
  | Ok a => k a
  | Revert e => Revert e
  end.

Notation "x <- c ;; k" := (bind c (fun x => k))
  (at level 100, c at next level, right associativity).

Notation "c ;; k" := (bind c (fun _ => k))
  (at level 100, right associativity).

(** ** Contract storage and call context *)

Record State := mkState {
  owner : Z;
  isProvider : gmap Z bool;
  lastSubmissionTime : gmap Z Z;
  lastDecryptionRequestTime : gmap Z Z;
  cooldownSeconds : Z;
  paused : bool;
  batches : gmap Z ReputationBatch.t;
  currentBatchId : Z;
  submissions : list ReputationSubmission.t;
  decryptionContexts : gmap Z DecryptionContext.t;
  (* storage of the decryption-oracle library (its request counter) *)
  oracle : Z
}.

Record Env := mkEnv {
  msg_sender : Z;
  block_timestamp : Z;
  this : Z
}.

Definition set_owner (s : State) (v : Z) : State :=
  mkState v (isProvider s) (lastSubmissionTime s) (lastDecryptionRequestTime s)
    (cooldownSeconds s) (paused s) (batches s) (currentBatchId s)
    (submissions s) (decryptionContexts s) (oracle s).

Definition set_isProvider (s : State) (v : gmap Z bool) : State :=
  mkState (owner s) v (lastSubmissionTime s) (lastDecryptionRequestTime s)
    (cooldownSeconds s) (paused s) (batches s) (currentBatchId s)
    (submissions s) (decryptionContexts s) (oracle s).

Definition set_lastSubmissionTime (s : State) (v : gmap Z Z) : State :=
  mkState (owner s) (isProvider s) v (lastDecryptionRequestTime s)
    (cooldownSeconds s) (paused s) (batches s) (currentBatchId s)
    (submissions s) (decryptionContexts s) (oracle s).

Definition set_lastDecryptionRequestTime (s : State) (v : gmap Z Z) : State :=
  mkState (owner s) (isProvider s) (lastSubmissionTime s) v
    (cooldownSeconds s) (paused s) (batches s) (currentBatchId s)
    (submissions s) (decryptionContexts s) (oracle s).

Definition set_cooldownSeconds (s : State) (v : Z) : State :=
  mkState (owner s) (isProvider s) (lastSubmissionTime s)
    (lastDecryptionRequestTime s) v (paused s) (batches s) (currentBatchId s)
    (submissions s) (decryptionContexts s) (oracle s).

Definition set_paused (s : State) (v : bool) : State :=
  mkState (owner s) (isProvider s) (lastSubmissionTime s)
    (lastDecryptionRequestTime s) (cooldownSeconds s) v (batches s)
    (currentBatchId s) (submissions s) (decryptionContexts s) (oracle s).

Definition set_batches (s : State) (v : gmap Z ReputationBatch.t) : State :=
  mkState (owner s) (isProvider s) (lastSubmissionTime s)
    (lastDecryptionRequestTime s) (cooldownSeconds s) (paused s) v
    (currentBatchId s) (submissions s) (decryptionContexts s) (oracle s).

Definition set_currentBatchId (s : State) (v : Z) : State :=
  mkState (owner s) (isProvider s) (lastSubmissionTime s)
    (lastDecryptionRequestTime s) (cooldownSeconds s) (paused s) (batches s)
    v (submissions s) (decryptionContexts s) (oracle s).

Definition set_submissions (s : State) (v : list ReputationSubmission.t) : State :=
  mkState (owner s) (isProvider s) (lastSubmissionTime s)
    (lastDecryptionRequestTime s) (cooldownSeconds s) (paused s) (batches s)
    (currentBatchId s) v (decryptionContexts s) (oracle s).

Definition set_decryptionContexts (s : State) (v : gmap Z DecryptionContext.t) : State :=
  mkState (owner s) (isProvider s) (lastSubmissionTime s)
    (lastDecryptionRequestTime s) (cooldownSeconds s) (paused s) (batches s)
    (currentBatchId s) (submissions s) v (oracle s).

Definition set_oracle (s : State) (v : Z) : State :=
  mkState (owner s) (isProvider s) (lastSubmissionTime s)
    (lastDecryptionRequestTime s) (cooldownSeconds s) (paused s) (batches s)
    (currentBatchId s) (submissions s) (decryptionContexts s) v.

(** Storage reads: a mapping returns the zero value at an unwritten key. *)

Definition providerOf (s : State) (a : Z) : bool :=
  default false (isProvider s !! a).

Definition lastSubmissionOf (s : State) (a : Z) : Z :=
  default 0 (lastSubmissionTime s !! a).

Definition lastDecryptionRequestOf (s : State) (a : Z) : Z :=
  default 0 (lastDecryptionRequestTime s !! a).

Definition batchOf (s : State) (id : Z) : ReputationBatch.t :=
  default ReputationBatch.zero (batches s !! id).

Definition contextOf (s : State) (requestId : Z) : DecryptionContext.t :=
  default DecryptionContext.zero (decryptionContexts s !! requestId).

Definition checked_add (a b : Z) : Result Z :=
  if a + b <=? MAX_UINT256 then Ok (a + b) else Revert (Panic 17).

(** ** ABI decoding of the oracle payload

    [abi.decode(bytes, (uint32))] reads one 32-byte big-endian word and
    reverts when the payload is shorter or the word does not fit [uint32]. *)

Definition be_word (bs : list Byte.byte) : Z :=
  fold_left (fun acc b => acc * 256 + Z.of_N (Byte.to_N b)) bs 0.

Definition abi_decode_uint32 (payload : list Byte.byte) : Result Z :=
  if (length payload <? 32)%nat then Revert DecodeFailure
  else
    let w := be_word (take 32 payload) in
    if w <=? MAX_UINT32 then Ok w else Revert DecodeFailure.

(** ** External capabilities

    None of these is code of the contract. Ciphertext handles are [bytes32]
    values; [FHE_add], [FHE_mul], [FHE_inv] and [FHE_asEuint32] return the
    handle of the result, [keccak256_cts cts a] is
    [keccak256(abi.encode(cts, a))], [requestDecryption] hands out the request
    id and steps the oracle library's storage, and [checkSignatures] is the
    KMS signature check.

    Modelled from the spec: the library behind [FHE.checkSignatures] is not
    among the sources; following sections 4.6 and 7 of the specification the
    check is a pass/fail test whose failure is reported as [InvalidProof]. *)

Class Capabilities := {
  isInitialized : Z -> bool;
  FHE_add : Z -> Z -> Z;
  FHE_mul : Z -> Z -> Z;
  FHE_inv : Z -> Z;
  FHE_asEuint32 : Z -> Z;
  toBytes32 : Z -> Z;
  keccak256_cts : list Z -> Z -> Z;
  oracle_init : Z;
  requestDecryption : Z -> list Z -> Z * Z;
  checkSignatures : Z -> list Byte.byte -> list Byte.byte -> bool
}.

Section Contract.

Context {P : Capabilities}.

(** ** Modifiers *)

Definition onlyOwner (e : Env) (s : State) : Result unit :=
  if negb (msg_sender e =? owner s) then Revert NotOwner else Ok tt.

Definition onlyProvider (e : Env) (s : State) : Result unit :=
  if negb (providerOf s (msg_sender e)) then Revert NotProvider else Ok tt.

Definition whenNotPaused (s : State) : Result unit :=
  if paused s then Revert PausedState else Ok tt.

Definition checkSubmissionCooldown (e : Env) (s : State) (_provider : Z) : Result unit :=
  deadline <- checked_add (lastSubmissionOf s _provider) (cooldownSeconds s) ;;
  if block_timestamp e <? deadline then Revert CooldownActive else Ok tt.

Definition checkDecryptionCooldown (e : Env) (s : State) (_provider : Z) : Result unit :=
  deadline <- checked_add (lastDecryptionRequestOf s _provider) (cooldownSeconds s) ;;
  if block_timestamp e <? deadline then Revert CooldownActive else Ok tt.

(** ** Constructor and administration *)

Definition constructor (e : Env) : State * list Event :=
  let s0 := mkState 0 ∅ ∅ ∅ 60 false ∅ 1 [] ∅ oracle_init in
  let s1 := set_owner s0 (msg_sender e) in
  let s2 := set_isProvider s1 (<[owner s1 := true]> (isProvider s1)) in
  (s2, [ProviderAdded (owner s2)]).

Definition transferOwnership (e : Env) (s : State) (newOwner : Z)
  : Result (State * list Event) :=
  onlyOwner e s ;;
  if newOwner =? 0 then Revert (ErrorString "New owner is the zero address")
  else Ok (set_owner s newOwner, [OwnershipTransferred (owner s) newOwner]).

Definition addProvider (e : Env) (s : State) (provider : Z)
  : Result (State * list Event) :=
  onlyOwner e s ;;
  if negb (providerOf s provider)
  then Ok (set_isProvider s (<[provider := true]> (isProvider s)),
           [ProviderAdded provider])
  else Ok (s, []).

Definition removeProvider (e : Env) (s : State) (provider : Z)
  : Result (State * list Event) :=
  onlyOwner e s ;;
  if providerOf s provider
  then Ok (set_isProvider s (<[provider := false]> (isProvider s)),
           [ProviderRemoved provider])
  else Ok (s, []).

Definition setCooldownSeconds (e : Env) (s : State) (newCooldownSeconds : Z)
  : Result (State * list Event) :=
  onlyOwner e s ;;
  Ok (set_cooldownSeconds s newCooldownSeconds, [CooldownSet newCooldownSeconds]).

Definition pause (e : Env) (s : State) : Result (State * list Event) :=
  onlyOwner e s ;;
  whenNotPaused s ;;
  Ok (set_paused s true, [Paused (msg_sender e)]).

Definition unpause (e : Env) (s : State) : Result (State * list Event) :=
  onlyOwner e s ;;
  if negb (paused s) then Revert (ErrorString "Contract not paused")
  else Ok (set_paused s false, [Unpaused (msg_sender e)]).

(** ** Batch lifecycle *)

Definition openBatch (e : Env) (s : State) : Result (State * list Event) :=
  onlyOwner e s ;;
  whenNotPaused s ;;
  let fresh := ReputationBatch.mk (currentBatchId s) true 0 0 in
  Ok (set_batches s (<[currentBatchId s := fresh]> (batches s)),
      [BatchOpened (currentBatchId s)]).

Definition closeBatch (e : Env) (s : State) : Result (State * list Event) :=
  onlyOwner e s ;;
  whenNotPaused s ;;
  if negb (ReputationBatch.isOpen (batchOf s (currentBatchId s)))
  then Revert InvalidBatch
  else
    let closed := ReputationBatch.with_isOpen (batchOf s (currentBatchId s)) false in
    let s1 := set_batches s (<[currentBatchId s := closed]> (batches s)) in
    next <- checked_add (currentBatchId s1) 1 ;;
    Ok (set_currentBatchId s1 next, [BatchClosed (currentBatchId s1)]).

(** ** Submission ledger *)

Definition submitReputation (e : Env) (s : State) (encryptedReputation : Z)
  : Result (State * list Event) :=
  onlyProvider e s ;;
  whenNotPaused s ;;
  checkSubmissionCooldown e s (msg_sender e) ;;
  if negb (ReputationBatch.isOpen (batchOf s (currentBatchId s)))
  then Revert BatchNotOpen
  else if negb (isInitialized encryptedReputation)
  then Revert NotInitialized
  else
    let submissionIndex := Z.of_nat (length (submissions s)) in
    let entry := ReputationSubmission.mk encryptedReputation (msg_sender e)
                   (currentBatchId s) in
    let s1 := set_submissions s (submissions s ++ [entry]) in
    count <- checked_add
               (ReputationBatch.submissionCount (batchOf s1 (currentBatchId s1))) 1 ;;
    let counted :=
      ReputationBatch.with_submissionCount (batchOf s1 (currentBatchId s1)) count in
    let s2 := set_batches s1 (<[currentBatchId s1 := counted]> (batches s1)) in
    let s3 := set_lastSubmissionTime s2
                (<[msg_sender e := block_timestamp e]> (lastSubmissionTime s2)) in
    Ok (s3, [ReputationSubmitted (msg_sender e) (currentBatchId s3) submissionIndex]).

(** ** Aggregation loops

    The [for] loop of [requestBatchDecryption] (source lines 181-190) and the
    one of [myCallback] (lines 224-233), each translated on its own: the
    array is walked in index order and the pair is the running
    [(encryptedTotalReputation, initialized)]. *)

Fixpoint request_loop (subs : list ReputationSubmission.t) (batchId : Z)
  (encryptedTotalReputation : Z) (initialized : bool) : Z * bool :=
  match subs with
  | [] => (encryptedTotalReputation, initialized)
  | sub :: rest =>
      if ReputationSubmission.batchId sub =? batchId then
        if negb initialized
        then request_loop rest batchId
               (ReputationSubmission.encryptedReputation sub) true
        else request_loop rest batchId
               (FHE_add encryptedTotalReputation
                  (ReputationSubmission.encryptedReputation sub)) initialized
      else request_loop rest batchId encryptedTotalReputation initialized
  end.

Fixpoint callback_loop (subs : list ReputationSubmission.t) (ctxBatchId : Z)
  (encryptedTotalReputation : Z) (initialized : bool) : Z * bool :=
  match subs with
  | [] => (encryptedTotalReputation, initialized)
  | sub :: rest =>
      if ReputationSubmission.batchId sub =? ctxBatchId then
        if negb initialized
        then callback_loop rest ctxBatchId
               (ReputationSubmission.encryptedReputation sub) true
        else callback_loop rest ctxBatchId
               (FHE_add encryptedTotalReputation
                  (ReputationSubmission.encryptedReputation sub)) initialized
      else callback_loop rest ctxBatchId encryptedTotalReputation initialized
  end.

Definition _hashCiphertexts (e : Env) (cts : list Z) : Z :=
  keccak256_cts cts (this e).

(** ** Oracle decryption coordinator *)

(** Lines 177-202: the ciphertext array and its digest, or the revert of
    line 193 when no entry of the ledger matched. *)
Definition request_aggregate (e : Env) (s : State) (batchId : Z)
  : Result (list Z * Z) :=
  let batch := batchOf s batchId in
  let '(encryptedTotalReputation, initialized) :=
    request_loop (submissions s) batchId 0 false in
  if negb initialized
  then Revert (ErrorString "No submissions found for batch")
  else
    let encryptedAverageReputation :=
      FHE_mul encryptedTotalReputation
        (FHE_inv (FHE_asEuint32 (ReputationBatch.submissionCount batch))) in
    let cts := [toBytes32 encryptedTotalReputation;
                toBytes32 encryptedAverageReputation] in
    Ok (cts, _hashCiphertexts e cts).

(** Lines 172-212: everything after the admission test of line 170. *)
Definition requestBatchDecryption_body (e : Env) (s : State) (batchId : Z)
  : Result (State * list Event) :=
  let batch := batchOf s batchId in
  if ReputationBatch.submissionCount batch =? 0
  then Revert (ErrorString "Batch has no submissions")
  else
    aggregate <- request_aggregate e s batchId ;;
    let '(cts, stateHash) := aggregate in
    let '(requestId, oracle') := requestDecryption (oracle s) cts in
    let s1 := set_oracle s oracle' in
    let s2 := set_decryptionContexts s1
                (<[requestId := DecryptionContext.mk batchId stateHash false]>
                   (decryptionContexts s1)) in
    let s3 := set_lastDecryptionRequestTime s2
                (<[msg_sender e := block_timestamp e]>
                   (lastDecryptionRequestTime s2)) in
    Ok (s3, [DecryptionRequested requestId batchId]).

Definition requestBatchDecryption (e : Env) (s : State) (batchId : Z)
  : Result (State * list Event) :=
  onlyProvider e s ;;
  whenNotPaused s ;;
  checkDecryptionCooldown e s (msg_sender e) ;;
  if (currentBatchId s <=? batchId)
     || negb (ReputationBatch.isOpen (batchOf s batchId))
  then Revert InvalidBatch
  else requestBatchDecryption_body e s batchId.

(** ** Callback verifier *)

(** Lines 219-240: the ciphertext array rebuilt by the callback and its
    digest. Nothing here can revert. *)
Definition callback_aggregate (e : Env) (s : State) (ctxBatchId : Z)
  : list Z * Z :=
  let batch := batchOf s ctxBatchId in
  let '(encryptedTotalReputation, _) :=
    callback_loop (submissions s) ctxBatchId 0 false in
  let encryptedAverageReputation :=
    FHE_mul encryptedTotalReputation
      (FHE_inv (FHE_asEuint32 (ReputationBatch.submissionCount batch))) in
  let cts := [toBytes32 encryptedTotalReputation;
              toBytes32 encryptedAverageReputation] in
  (cts, _hashCiphertexts e cts).

Definition myCallback (e : Env) (s : State) (requestId : Z)
  (cleartexts proof : list Byte.byte) : Result (State * list Event) :=
  if DecryptionContext.processed (contextOf s requestId)
  then Revert ReplayAttempt
  else
    let '(_, currentHash) :=
      callback_aggregate e s (DecryptionContext.batchId (contextOf s requestId)) in
    if negb (currentHash =? DecryptionContext.stateHash (contextOf s requestId))
    then Revert StateMismatch
    else if negb (checkSignatures requestId cleartexts proof)
    then Revert InvalidProof
    else
      totalReputation <- abi_decode_uint32 cleartexts ;;
      averageReputation <- abi_decode_uint32 (drop 32 cleartexts) ;;
      let done := DecryptionContext.with_processed (contextOf s requestId) true in
      let s1 := set_decryptionContexts s
                  (<[requestId := done]> (decryptionContexts s)) in
      Ok (s1, [DecryptionCompleted requestId
                 (DecryptionContext.batchId (contextOf s1 requestId))
                 totalReputation averageReputation]).

(** ** Transactions *)

Inductive Call :=
| TransferOwnership (newOwner : Z)
| AddProvider (provider : Z)
| RemoveProvider (provider : Z)
| SetCooldownSeconds (newCooldownSeconds : Z)
| Pause
| Unpause
| OpenBatch
| CloseBatch
| SubmitReputation (encryptedReputation : Z)
| RequestBatchDecryption (batchId : Z)
| MyCallback (requestId : Z) (cleartexts proof : list Byte.byte).

Definition step (e : Env) (s : State) (c : Call) : Result (State * list Event) :=
  match c with
  | TransferOwnership newOwner => transferOwnership e s newOwner
  | AddProvider provider => addProvider e s provider
  | RemoveProvider provider => removeProvider e s provider
  | SetCooldownSeconds n => setCooldownSeconds e s n
  | Pause => pause e s
  | Unpause => unpause e s
  | OpenBatch => openBatch e s
  | CloseBatch => closeBatch e s
  | SubmitReputation ct => submitReputation e s ct
  | RequestBatchDecryption batchId => requestBatchDecryption e s batchId
  | MyCallback requestId cleartexts proof => myCallback e s requestId cleartexts proof
  end.

(** A reverted transaction leaves storage as it was and emits nothing. *)
Definition exec (e : Env) (s : State) (c : Call) : State * list Event :=
  match step e s c with
  | Ok r => r
  | Revert _ => (s, [])
  end.

Fixpoint run (s : State) (txs : list (Env * Call)) : State :=
  match txs with
  | [] => s
  | (e, c) :: rest => run (fst (exec e s c)) rest
  end.

(** States the deployed contract can be in. Callers, timestamps and call
    arguments range over all of [Z], a superset of their Solidity types, so
    what holds of every reachable state here holds of every state on chain. *)
Inductive reachable : State -> Prop :=
| reachable_deploy (e : Env) : reachable (fst (constructor e))
| reachable_step (s : State) (e : Env) (c : Call) :
    reachable s -> reachable (fst (exec e s c)).

End Contract.

(** ** Aggregation as the specification words it

    Scan the ledger in arrival order; the first matching entry seeds the
    accumulator, every later matching entry is added homomorphically, and the
    average is the sum multiplied by the scheme-encoded inverse of the batch's
    submission count. The output is [[sum; average]] with its digest; there is
    no output when nothing matches. *)

Section AggregateSpec.

Context {P : Capabilities}.

Definition matching (subs : list ReputationSubmission.t) (batchId : Z) : list Z :=
  map ReputationSubmission.encryptedReputation
    (List.filter (fun sub => ReputationSubmission.batchId sub =? batchId) subs).

Definition ledgerCount (s : State) (batchId : Z) : Z :=
  Z.of_nat (length (matching (submissions s) batchId)).

Definition aggregate_spec (e : Env) (s : State) (batchId : Z) : option (list Z * Z) :=
  match matching (submissions s) batchId with
  | [] => None
  | seed :: later =>
      let sumCt := fold_left FHE_add later seed in
      let avgCt :=
        FHE_mul sumCt
          (FHE_inv (FHE_asEuint32 (ReputationBatch.submissionCount (batchOf s batchId)))) in
      let cts := [toBytes32 sumCt; toBytes32 avgCt] in
      Some (cts, keccak256_cts cts (this e))
  end.

End AggregateSpec.

(** ** A deterministic stand-in for the external capabilities

    Plaintexts are integers modulo the prime 257; the handle of [x] is
    [x + 1], so that the zero handle stays the uninitialized one. It is used
    only to run the contract on concrete transactions. *)

Module Fake.

Definition prime : Z := 257.

Definition enc (x : Z) : Z := x mod prime + 1.

Definition dec (h : Z) : Z := if h =? 0 then 0 else (h - 1) mod prime.

Definition add (a b : Z) : Z := enc (dec a + dec b).

Definition mul (a b : Z) : Z := enc (dec a * dec b).

Definition inv (a : Z) : Z := enc (dec a ^ (prime - 2)).

Definition digest (cts : list Z) (a : Z) : Z :=
  1 + fold_left (fun acc c => acc * 1000003 + c) (cts ++ [a]) 7.

Definition signed (requestId : Z) (cleartexts proof : list Byte.byte) : bool :=
  match proof with
  | [] => false
  | _ :: _ => true
  end.

Definition capabilities : Capabilities := {|
  isInitialized := fun h => negb (h =? 0);
  FHE_add := add;
  FHE_mul := mul;
  FHE_inv := inv;
  FHE_asEuint32 := enc;
  toBytes32 := fun h => h;
  keccak256_cts := digest;
  oracle_init := 0;
  requestDecryption := fun o _ => (o, o + 1);
  checkSignatures := signed
|}.

(** The deployer (and owner) is address 1, the contract lives at 4096. *)
Definition at_time (sender now : Z) : Env := mkEnv sender now 4096.

Definition deployed : State := fst (constructor (P := capabilities) (at_time 1 0)).

Definition play (txs : list (Env * Call)) : State :=
  run (P := capabilities) deployed txs.

(** A 64-byte oracle payload: two 32-byte big-endian words. *)
Definition word (v : Byte.byte) : list Byte.byte := replicate 31 Byte.x00 ++ [v].

Definition payload (total average : Byte.byte) : list Byte.byte :=
  word total ++ word average.

End Fake.

(** ** Concrete runs

    Transactions against the stand-in, by the deployer (address 1) and two
    more providers (addresses 2 and 3). *)

Module Scenario.

Import Fake.

Definition open_and_submit : list (Env * Call) :=
  [(at_time 1 100, OpenBatch); (at_time 1 100, SubmitReputation (enc 10))].

Definition opened : State := play [(at_time 1 100, OpenBatch)].

Definition submitted : State := play open_and_submit.

Definition reopened : State :=
  play (open_and_submit ++ [(at_time 1 150, OpenBatch)]).

Definition open_and_close : list (Env * Call) :=
  [(at_time 1 100, OpenBatch); (at_time 1 110, CloseBatch)].

Definition closed : State := play open_and_close.

Definition drift : list (Env * Call) :=
  open_and_submit ++
  [(at_time 1 200, RequestBatchDecryption 1);
   (at_time 1 300, SubmitReputation (enc 20))].

Definition drifted : State := play drift.

(** Providers 1, 2 and 3 submit 10, 20 and 30 into batch 1. *)
Definition three_providers : State :=
  play [(at_time 1 10, AddProvider 2);
        (at_time 1 20, AddProvider 3);
        (at_time 1 100, OpenBatch);
        (at_time 1 100, SubmitReputation (enc 10));
        (at_time 2 101, SubmitReputation (enc 20));
        (at_time 3 102, SubmitReputation (enc 30))].

(** The state lines 172-212 of [requestBatchDecryption] produce from
    [three_providers] for batch 1, that is, with the admission test of line
    170 left out. *)
Definition requested : State :=
  match requestBatchDecryption_body (P := capabilities) (at_time 1 200)
          three_providers 1 with
  | Ok (s, _) => s
  | Revert _ => three_providers
  end.

(** Total 60 and average 20, as the oracle would report them. *)
Definition cleartexts : list Byte.byte := payload Byte.x3c Byte.x14.

Definition completed : State :=
  fst (exec (P := capabilities) (at_time 9 400) requested
         (MyCallback 0 cleartexts [Byte.x01])).

End Scenario.

(** ** Predicates on states and runs *)

Section Predicates.

Context {P : Capabilities}.

(** Only the batch the pointer designates can be open. *)
Definition closed_elsewhere (s : State) : Prop :=
  forall id, id <> currentBatchId s ->
    ReputationBatch.isOpen (batchOf s id) = false.

Definition all_closed (s : State) : Prop :=
  forall id, ReputationBatch.isOpen (batchOf s id) = false.

(** A batch never counts more submissions than the ledger holds for it. *)
Definition count_below_ledger (s : State) : Prop :=
  forall id, ReputationBatch.submissionCount (batchOf s id) <= ledgerCount s id.

(** Batch ids start at 1: the pointer and every ledger entry are at least 1,
    and slot 0 of [batches] is never written. *)
Definition ledger_ids_bounded (s : State) : Prop :=
  1 <= currentBatchId s /\
  Forall (fun sub => 1 <= ReputationSubmission.batchId sub <= currentBatchId s)
    (submissions s) /\
  batches s !! 0 = None.

(** No [openBatch] of the run goes through. *)
Fixpoint no_successful_open (s : State) (txs : list (Env * Call)) : bool :=
  match txs with
  | [] => true
  | (e, c) :: rest =>
      match c, step e s c with
      | OpenBatch, Ok _ => false
      | _, _ => no_successful_open (fst (exec e s c)) rest
      end
  end.

Definition is_request (c : Call) : bool :=
  match c with
  | RequestBatchDecryption _ => true
  | _ => false
  end.

(** The three gates in front of [submitReputation] and of
    [requestBatchDecryption]. *)
Definition submission_gates (e : Env) (s : State) : Result unit :=
  onlyProvider e s ;;
  whenNotPaused s ;;
  checkSubmissionCooldown e s (msg_sender e).

Definition decryption_gates (e : Env) (s : State) : Result unit :=
  onlyProvider e s ;;
  whenNotPaused s ;;
  checkDecryptionCooldown e s (msg_sender e).

End Predicates.

(** ** Internal helpers of the contract and further predicates *)

Section Helpers.

Context {P : Capabilities}.

(** Lines 258-262. The parameter is a value, so the assignment is local to
    the call: nothing is returned and contract storage is not touched. *)
Definition _initIfNeeded (x : Z) : unit :=
  let x' := if negb (isInitialized x) then FHE_asEuint32 0 else x in
  tt.

(** Lines 264-268. *)
Definition _requireInitialized (x : Z) : Result unit :=
  if negb (isInitialized x) then Revert NotInitialized else Ok tt.

(** The functions carrying the [onlyOwner] modifier. *)
Definition is_owner_only (c : Call) : bool :=
  match c with
  | TransferOwnership _ | AddProvider _ | RemoveProvider _
  | SetCooldownSeconds _ | Pause | Unpause | OpenBatch | CloseBatch => true
  | SubmitReputation _ | RequestBatchDecryption _ | MyCallback _ _ _ => false
  end.

(** The functions carrying the [whenNotPaused] modifier. *)
Definition is_pausable (c : Call) : bool :=
  match c with
  | Pause | OpenBatch | CloseBatch
  | SubmitReputation _ | RequestBatchDecryption _ => true
  | TransferOwnership _ | AddProvider _ | RemoveProvider _
  | SetCooldownSeconds _ | Unpause | MyCallback _ _ _ => false
  end.

(** The caller holds the role the call asks for: owner for the
    administrative calls, provider for submissions and requests, none for the
    callback. *)
Definition authorized (e : Env) (s : State) (c : Call) : bool :=
  match c with
  | SubmitReputation _ | RequestBatchDecryption _ => providerOf s (msg_sender e)
  | MyCallback _ _ _ => true
  | _ => msg_sender e =? owner s
  end.

(** Each stored batch record sits under its own id, and no record has a
    reputation sum. *)
Definition batch_records_plain (s : State) : Prop :=
  forall id,
    ReputationBatch.reputationSum (batchOf s id) = 0 /\
    0 <= ReputationBatch.submissionCount (batchOf s id) /\
    (batches s !! id = None \/ ReputationBatch.batchId (batchOf s id) = id).

Definition ledger_initialized (s : State) : Prop :=
  Forall (fun sub =>
            _requireInitialized (ReputationSubmission.encryptedReputation sub) = Ok tt)
    (submissions s).

(** Every [openBatch] of the run that goes through lands on a batch id
    for which the ledger holds no entry. *)
Fixpoint opens_only_unused (s : State) (txs : list (Env * Call)) : bool :=
  match txs with
  | [] => true
  | (e, c) :: rest =>
      match c, step e s c with
      | OpenBatch, Ok _ =>
          (ledgerCount s (currentBatchId s) =? 0)
          && opens_only_unused (fst (exec e s c)) rest
      | _, _ => opens_only_unused (fst (exec e s c)) rest
      end
  end.

End Helpers.

Module Walkthrough.

Import Fake Scenario.

(** The owner opens batch 1 and pauses the contract. *)
Definition halted : State :=
  play [(at_time 1 100, OpenBatch); (at_time 1 110, Pause)].

(** The deployer hands ownership to address 2. *)
Definition handed_over : State := play [(at_time 1 50, TransferOwnership 2)].

(** After one submission at time 100 the owner sets the largest cooldown. *)
Definition locked : State :=
  play (open_and_submit ++ [(at_time 1 120, SetCooldownSeconds MAX_UINT256)]).

(** Provider 2 is added and then removed. *)
Definition revoked : State :=
  play [(at_time 1 10, AddProvider 2); (at_time 1 20, RemoveProvider 2)].

End Walkthrough.

(** * Properties *)

Section Properties.

Context {P : Capabilities}.

Ltac unfold_calls :=
  unfold transferOwnership, addProvider, removeProvider, setCooldownSeconds,
    pause, unpause, openBatch, closeBatch, submitReputation,
    requestBatchDecryption, requestBatchDecryption_body, myCallback,
    submission_gates, decryption_gates,
    onlyOwner, onlyProvider, whenNotPaused, checkSubmissionCooldown,
    checkDecryptionCooldown, checked_add, bind in *.

(** Split a successful call into the branch it took. *)
Ltac invert_call H :=
  unfold_calls; repeat (case_match; simplify_eq; try done).

Lemma exec_ok e s c s' evs : step e s c = Ok (s', evs) -> exec e s c = (s', evs).
Proof. unfold exec. by intros ->. Qed.

Lemma exec_revert e s c err : step e s c = Revert err -> exec e s c = (s, []).
Proof. unfold exec. by intros ->. Qed.

Lemma exec_cases e s c :
  (exists s' evs, step e s c = Ok (s', evs) /\ exec e s c = (s', evs))
  \/ (exists err, step e s c = Revert err /\ exec e s c = (s, [])).
Proof.
  unfold exec. destruct (step e s c) as [[s' evs]|err]; [left|right]; eauto.
Qed.

(** ** The lifecycle invariant *)

Lemma closed_elsewhere_deploy e : closed_elsewhere (fst (constructor e)).
Proof. intros id _. reflexivity. Qed.

Lemma closed_elsewhere_step e s c s' evs :
  closed_elsewhere s -> step e s c = Ok (s', evs) -> closed_elsewhere s'.
Proof.
  intros Hinv Hstep id Hid.
  destruct c; simpl in Hstep; invert_call Hstep;
    try (by apply Hinv); unfold batchOf in *; simpl in *.
  - rewrite lookup_insert_ne by done. by apply (Hinv id).
  - destruct (decide (id = currentBatchId s)) as [->|Hne].
    + by rewrite lookup_insert_eq.
    + rewrite lookup_insert_ne by done. by apply (Hinv id).
  - rewrite lookup_insert_ne by done. by apply (Hinv id).
Qed.

Lemma reachable_closed_elsewhere s : reachable s -> closed_elsewhere s.
Proof.
  induction 1 as [e|s e c Hs IH].
  - apply closed_elsewhere_deploy.
  - destruct (exec_cases e s c) as [(s' & evs & Hok & ->)|(err & _ & ->)]; simpl.
    + eapply closed_elsewhere_step; eauto.
    + done.
Qed.

Lemma reachable_run s txs : reachable s -> reachable (run s txs).
Proof.
  revert s. induction txs as [|[e c] rest IH]; intros s Hs; simpl.
  - done.
  - apply IH. by constructor.
Qed.

(** ** Admission test of [requestBatchDecryption] *)

(** In a state of the lifecycle invariant the admission test of line 170
    rejects every batch id: an id at or above the pointer fails the first
    disjunct, an id below it names a batch that is not open. *)
Lemma request_rejected e s batchId :
  closed_elsewhere s ->
  decryption_gates e s = Ok tt ->
  requestBatchDecryption e s batchId = Revert InvalidBatch.
Proof.
  intros Hinv Hgates. unfold requestBatchDecryption.
  unfold decryption_gates in Hgates.
  destruct (onlyProvider e s) as [[]|]; [simpl in *|done].
  destruct (whenNotPaused s) as [[]|]; [simpl in *|done].
  destruct (checkDecryptionCooldown e s (msg_sender e)) as [[]|]; [simpl|done].
  destruct (currentBatchId s <=? batchId) eqn:Hle; [done|].
  apply Z.leb_gt in Hle. rewrite Hinv by lia. done.
Qed.

Lemma request_never_succeeds e s batchId :
  closed_elsewhere s ->
  exists err, requestBatchDecryption e s batchId = Revert err.
Proof.
  intros Hinv. unfold requestBatchDecryption.
  destruct (onlyProvider e s) as [[]|]; [simpl|by eexists].
  destruct (whenNotPaused s) as [[]|]; [simpl|by eexists].
  destruct (checkDecryptionCooldown e s (msg_sender e)) as [[]|]; [simpl|by eexists].
  destruct (currentBatchId s <=? batchId) eqn:Hle; [by eexists|].
  apply Z.leb_gt in Hle. rewrite Hinv by lia. by eexists.
Qed.

(** ** After [closeBatch] *)

Lemma closeBatch_all_closed e s s' evs :
  closed_elsewhere s -> closeBatch e s = Ok (s', evs) -> all_closed s'.
Proof.
  intros Hinv Hclose id. invert_call Hclose. unfold batchOf in *; simpl in *.
  destruct (decide (id = currentBatchId s)) as [->|Hne].
  - by rewrite lookup_insert_eq.
  - rewrite lookup_insert_ne by done. by apply (Hinv id).
Qed.

Lemma all_closed_step e s c s' evs :
  all_closed s -> c <> OpenBatch -> step e s c = Ok (s', evs) -> all_closed s'.
Proof.
  intros Hinv Hc Hstep id. pose proof (Hinv (currentBatchId s)) as Hcur.
  destruct c; simpl in Hstep; try done; unfold_calls;
    rewrite ?Hcur in Hstep; invert_call Hstep; by apply Hinv.
Qed.

Lemma all_closed_run s txs :
  all_closed s -> no_successful_open s txs = true -> all_closed (run s txs).
Proof.
  revert s. induction txs as [|[e c] rest IH]; intros s Hinv Hno.
  - done.
  - cbn [run no_successful_open] in *.
    destruct (exec_cases e s c) as [(s' & evs & Hok & Hex)|(err & Herr & Hex)];
      rewrite Hex in *; cbn [fst] in *.
    + apply IH.
      * eapply all_closed_step; [done| |done]. intros ->. by rewrite Hok in Hno.
      * destruct c; try done. by rewrite Hok in Hno.
    + apply IH; [done|]. destruct c; try done. by rewrite Herr in Hno.
Qed.

Lemma submit_rejected_all_closed e s ct :
  all_closed s ->
  submission_gates e s = Ok tt ->
  submitReputation e s ct = Revert BatchNotOpen.
Proof.
  intros Hinv Hgates. unfold submitReputation.
  unfold submission_gates in Hgates.
  destruct (onlyProvider e s) as [[]|]; [simpl in *|done].
  destruct (whenNotPaused s) as [[]|]; [simpl in *|done].
  destruct (checkSubmissionCooldown e s (msg_sender e)) as [[]|]; [simpl|done].
  by rewrite Hinv.
Qed.

(** ** The two aggregation loops against the specification *)

Lemma matching_cons sub rest b :
  matching (sub :: rest) b =
  if ReputationSubmission.batchId sub =? b
  then ReputationSubmission.encryptedReputation sub :: matching rest b
  else matching rest b.
Proof. unfold matching. simpl. by destruct (_ =? _). Qed.

Lemma matching_snoc subs entry b :
  matching (subs ++ [entry]) b =
  matching subs b ++
  (if ReputationSubmission.batchId entry =? b
   then [ReputationSubmission.encryptedReputation entry] else []).
Proof.
  unfold matching. rewrite List.filter_app, map_app. simpl.
  by destruct (_ =? _).
Qed.

Lemma request_loop_running subs b total :
  request_loop subs b total true = (fold_left FHE_add (matching subs b) total, true).
Proof.
  revert total. induction subs as [|sub rest IH]; intros total; [done|].
  rewrite matching_cons. simpl. destruct (_ =? _); simpl; apply IH.
Qed.

Lemma request_loop_fresh subs b total :
  request_loop subs b total false =
  match matching subs b with
  | [] => (total, false)
  | seed :: later => (fold_left FHE_add later seed, true)
  end.
Proof.
  induction subs as [|sub rest IH]; [done|].
  rewrite matching_cons. simpl. destruct (_ =? _); simpl.
  - apply request_loop_running.
  - apply IH.
Qed.

Lemma callback_loop_running subs b total :
  callback_loop subs b total true = (fold_left FHE_add (matching subs b) total, true).
Proof.
  revert total. induction subs as [|sub rest IH]; intros total; [done|].
  rewrite matching_cons. simpl. destruct (_ =? _); simpl; apply IH.
Qed.

Lemma callback_loop_fresh subs b total :
  callback_loop subs b total false =
  match matching subs b with
  | [] => (total, false)
  | seed :: later => (fold_left FHE_add later seed, true)
  end.
Proof.
  induction subs as [|sub rest IH]; [done|].
  rewrite matching_cons. simpl. destruct (_ =? _); simpl.
  - apply callback_loop_running.
  - apply IH.
Qed.

Lemma request_aggregate_spec e s b :
  request_aggregate e s b =
  match aggregate_spec e s b with
  | Some r => Ok r
  | None => Revert (ErrorString "No submissions found for batch")
  end.
Proof.
  unfold request_aggregate, aggregate_spec, _hashCiphertexts.
  rewrite request_loop_fresh. by destruct (matching (submissions s) b).
Qed.

Lemma callback_aggregate_spec e s b r :
  aggregate_spec e s b = Some r -> callback_aggregate e s b = r.
Proof.
  unfold callback_aggregate, aggregate_spec, _hashCiphertexts.
  rewrite callback_loop_fresh. destruct (matching (submissions s) b); [done|].
  by intros [= <-].
Qed.

(** With no matching entry the callback still builds a digest, from the
    zero handle. *)
Lemma callback_aggregate_unmatched e s b :
  matching (submissions s) b = [] ->
  callback_aggregate e s b =
  (let avg := FHE_mul 0 (FHE_inv (FHE_asEuint32
                (ReputationBatch.submissionCount (batchOf s b)))) in
   ([toBytes32 0; toBytes32 avg],
    keccak256_cts [toBytes32 0; toBytes32 avg] (this e))).
Proof.
  intros Hnone. unfold callback_aggregate, _hashCiphertexts.
  rewrite callback_loop_fresh, Hnone. done.
Qed.

(** ** Submission counters against the ledger *)

Lemma count_below_ledger_step e s c s' evs :
  count_below_ledger s -> step e s c = Ok (s', evs) -> count_below_ledger s'.
Proof.
  intros Hinv Hstep id. pose proof (Hinv id) as Hid.
  assert (0 <= ledgerCount s id) as Hnn by (unfold ledgerCount; lia).
  destruct c; simpl in Hstep; invert_call Hstep; try done;
    unfold ledgerCount, batchOf in *; simpl in *.
  - destruct (decide (id = currentBatchId s)) as [->|Hne].
    + rewrite lookup_insert_eq. simpl. lia.
    + by rewrite lookup_insert_ne.
  - destruct (decide (id = currentBatchId s)) as [->|Hne].
    + by rewrite lookup_insert_eq.
    + by rewrite lookup_insert_ne.
  - rewrite matching_snoc, length_app. simpl.
    destruct (decide (id = currentBatchId s)) as [->|Hne].
    + rewrite lookup_insert_eq, Z.eqb_refl. simpl. lia.
    + rewrite lookup_insert_ne by done.
      destruct (currentBatchId s =? id); simpl; lia.
Qed.

Lemma reachable_count_below_ledger s : reachable s -> count_below_ledger s.
Proof.
  induction 1 as [e|s e c Hs IH].
  - intros id. by vm_compute.
  - destruct (exec_cases e s c) as [(s' & evs & Hok & ->)|(err & _ & ->)]; simpl.
    + eapply count_below_ledger_step; eauto.
    + done.
Qed.

(** The counters agree with the ledger across every call except an
    [openBatch] that lands on a batch id the ledger already refers to. *)
Lemma count_matches_ledger_step e s c s' evs :
  (forall id, ReputationBatch.submissionCount (batchOf s id) = ledgerCount s id) ->
  (c = OpenBatch -> ledgerCount s (currentBatchId s) = 0) ->
  step e s c = Ok (s', evs) ->
  forall id, ReputationBatch.submissionCount (batchOf s' id) = ledgerCount s' id.
Proof.
  intros Hinv Hopen Hstep id. pose proof (Hinv id) as Hid.
  destruct c; simpl in Hstep; invert_call Hstep; try done;
    unfold ledgerCount, batchOf in *; simpl in *.
  - destruct (decide (id = currentBatchId s)) as [->|Hne].
    + rewrite lookup_insert_eq. simpl. by rewrite Hopen.
    + by rewrite lookup_insert_ne.
  - destruct (decide (id = currentBatchId s)) as [->|Hne].
    + by rewrite lookup_insert_eq.
    + by rewrite lookup_insert_ne.
  - rewrite matching_snoc, length_app. simpl.
    destruct (decide (id = currentBatchId s)) as [->|Hne].
    + rewrite lookup_insert_eq, Z.eqb_refl. simpl. lia.
    + rewrite lookup_insert_ne by done.
      destruct (currentBatchId s =? id) eqn:Heq; [lia|]. simpl. lia.
Qed.

(** ** The callback *)

(** What a successful callback has checked, and the state it leaves. *)
Lemma myCallback_success e s requestId cleartexts proof s' evs :
  myCallback e s requestId cleartexts proof = Ok (s', evs) ->
  let ctx := contextOf s requestId in
  DecryptionContext.processed ctx = false /\
  snd (callback_aggregate e s (DecryptionContext.batchId ctx)) =
    DecryptionContext.stateHash ctx /\
  checkSignatures requestId cleartexts proof = true /\
  exists total average,
    abi_decode_uint32 cleartexts = Ok total /\
    abi_decode_uint32 (drop 32 cleartexts) = Ok average /\
    s' = set_decryptionContexts s
           (<[requestId := DecryptionContext.with_processed ctx true]>
              (decryptionContexts s)) /\
    evs = [DecryptionCompleted requestId (DecryptionContext.batchId ctx)
             total average].
Proof.
  intros Hcall ctx. unfold myCallback in Hcall. fold ctx in Hcall.
  destruct (DecryptionContext.processed ctx) eqn:Hproc; [done|].
  destruct (callback_aggregate e s (DecryptionContext.batchId ctx))
    as [cts currentHash] eqn:Hagg.
  destruct (currentHash =? DecryptionContext.stateHash ctx) eqn:Hhash;
    [simpl in Hcall|done].
  apply Z.eqb_eq in Hhash.
  destruct (checkSignatures requestId cleartexts proof) eqn:Hsig;
    [simpl in Hcall|done].
  unfold bind in Hcall.
  destruct (abi_decode_uint32 cleartexts) as [total|] eqn:Htotal; [|done].
  destruct (abi_decode_uint32 (drop 32 cleartexts)) as [average|] eqn:Havg; [|done].
  injection Hcall as <- <-.
  repeat split; try done.
  exists total, average. repeat split; try done.
  unfold contextOf at 1. simpl. by rewrite lookup_insert_eq.
Qed.

Lemma myCallback_replay e s requestId cleartexts proof :
  DecryptionContext.processed (contextOf s requestId) = true ->
  myCallback e s requestId cleartexts proof = Revert ReplayAttempt.
Proof. intros Hproc. unfold myCallback. by rewrite Hproc. Qed.

(** A request id without a context reads as the zero context: the callback
    goes on to rebuild the aggregate of batch 0 and to compare its digest
    with the zero hash. *)
Lemma myCallback_unknown e s requestId cleartexts proof :
  decryptionContexts s !! requestId = None ->
  myCallback e s requestId cleartexts proof =
  if negb (snd (callback_aggregate e s 0) =? 0)
  then Revert StateMismatch
  else if negb (checkSignatures requestId cleartexts proof)
  then Revert InvalidProof
  else
    totalReputation <- abi_decode_uint32 cleartexts ;;
    averageReputation <- abi_decode_uint32 (drop 32 cleartexts) ;;
    Ok (set_decryptionContexts s
          (<[requestId := DecryptionContext.mk 0 0 true]> (decryptionContexts s)),
        [DecryptionCompleted requestId 0 totalReputation averageReputation]).
Proof.
  intros Hnone. unfold myCallback, contextOf. rewrite Hnone. simpl.
  destruct (callback_aggregate e s 0) as [cts currentHash]. simpl.
  destruct (currentHash =? 0); [simpl|done].
  destruct (checkSignatures requestId cleartexts proof); [simpl|done].
  unfold bind.
  destruct (abi_decode_uint32 cleartexts); [|done].
  destruct (abi_decode_uint32 (drop 32 cleartexts)); [|done].
  by rewrite lookup_insert_eq.
Qed.

(** Once set, a [processed] flag is kept by every transaction that is not a
    disclosure request, and by every transaction of a state in which no batch
    but the current one is open. *)
Lemma processed_kept e s c requestId :
  DecryptionContext.processed (contextOf s requestId) = true ->
  closed_elsewhere s \/ is_request c = false ->
  DecryptionContext.processed (contextOf (fst (exec e s c)) requestId) = true.
Proof.
  intros Hproc Hside.
  destruct (exec_cases e s c) as [(s' & evs & Hok & ->)|(err & _ & ->)];
    [simpl|done].
  destruct c; simpl in Hok.
  11: {
    apply myCallback_success in Hok as (Hfresh & _ & _ & t & a & _ & _ & -> & _).
    unfold contextOf in *. simpl.
    destruct (decide (requestId0 = requestId)) as [->|Hne].
    - by rewrite lookup_insert_eq.
    - by rewrite lookup_insert_ne.
  }
  10: {
    destruct Hside as [Hinv|]; [|done].
    destruct (request_never_succeeds e s batchId Hinv) as [err Herr]. congruence.
  }
  all: invert_call Hok; done.
Qed.

(** In a reachable state every stored context still has the zero batch id and
    the zero digest: none was written by [requestBatchDecryption]. *)
Lemma contexts_unrequested_step e s c s' evs :
  closed_elsewhere s ->
  (forall requestId,
     DecryptionContext.batchId (contextOf s requestId) = 0 /\
     DecryptionContext.stateHash (contextOf s requestId) = 0) ->
  step e s c = Ok (s', evs) ->
  forall requestId,
    DecryptionContext.batchId (contextOf s' requestId) = 0 /\
    DecryptionContext.stateHash (contextOf s' requestId) = 0.
Proof.
  intros Hclosed Hinv Hstep requestId.
  destruct c; simpl in Hstep.
  11: {
    apply myCallback_success in Hstep as (_ & _ & _ & t & a & _ & _ & -> & _).
    unfold contextOf in *. simpl.
    destruct (decide (requestId0 = requestId)) as [->|Hne].
    - rewrite lookup_insert_eq. simpl. apply Hinv.
    - rewrite lookup_insert_ne by done. apply Hinv.
  }
  10: {
    destruct (request_never_succeeds e s batchId Hclosed) as [err Herr]. congruence.
  }
  all: invert_call Hstep; apply Hinv.
Qed.

Lemma reachable_contexts_unrequested s :
  reachable s ->
  forall requestId,
    DecryptionContext.batchId (contextOf s requestId) = 0 /\
    DecryptionContext.stateHash (contextOf s requestId) = 0.
Proof.
  induction 1 as [e|s e c Hs IH].
  - done.
  - destruct (exec_cases e s c) as [(s' & evs & Hok & ->)|(err & _ & ->)]; simpl.
    + eapply contexts_unrequested_step; eauto using reachable_closed_elsewhere.
    + done.
Qed.

(** ** Batch 0 *)

Lemma ledger_ids_bounded_step e s c s' evs :
  ledger_ids_bounded s -> step e s c = Ok (s', evs) -> ledger_ids_bounded s'.
Proof.
  intros (Hcur & Hsubs & Hzero) Hstep. unfold ledger_ids_bounded.
  destruct c; simpl in Hstep; invert_call Hstep; try done; simpl.
  - repeat split; try done. rewrite lookup_insert_ne; [done|lia].
  - repeat split; [lia| |rewrite lookup_insert_ne; [done|lia]].
    eapply Forall_impl; [exact Hsubs|]. simpl. intros sub. lia.
  - repeat split; [done| |rewrite lookup_insert_ne; [done|lia]].
    apply Forall_app. split; [done|]. apply Forall_singleton. simpl. lia.
Qed.

Lemma reachable_ledger_ids_bounded s : reachable s -> ledger_ids_bounded s.
Proof.
  induction 1 as [e|s e c Hs IH].
  - repeat split; simpl; [lia|constructor].
  - destruct (exec_cases e s c) as [(s' & evs & Hok & ->)|(err & _ & ->)]; simpl.
    + eapply ledger_ids_bounded_step; eauto.
    + done.
Qed.

Lemma matching_none subs b :
  Forall (fun sub => ReputationSubmission.batchId sub <> b) subs ->
  matching subs b = [].
Proof.
  induction 1 as [|sub rest Hsub _ IH]; [done|].
  rewrite matching_cons. destruct (_ =? _) eqn:Heq; [lia|done].
Qed.

(** In a reachable state the callback for an unknown request id aggregates
    nothing: the digest it compares with zero is the one of the zero handle
    and of the zero handle times the inverse of the encoded count 0. *)
Lemma reachable_unknown_request e s requestId cleartexts proof :
  reachable s ->
  decryptionContexts s !! requestId = None ->
  keccak256_cts
    [toBytes32 0; toBytes32 (FHE_mul 0 (FHE_inv (FHE_asEuint32 0)))] (this e) <> 0 ->
  myCallback e s requestId cleartexts proof = Revert StateMismatch.
Proof.
  intros Hreach Hnone Hdigest.
  destruct (reachable_ledger_ids_bounded s Hreach) as (Hcur & Hsubs & Hzero).
  rewrite myCallback_unknown by done.
  rewrite callback_aggregate_unmatched.
  - unfold batchOf. rewrite Hzero. simpl.
    destruct (_ =? 0) eqn:Hz; [|done]. apply Z.eqb_eq in Hz. done.
  - apply matching_none. eapply Forall_impl; [exact Hsubs|]. simpl. lia.
Qed.

(** ** Claims stated for every instance of the capabilities *)

(** C3 (as amended). A request id with no stored context is not refused as
    unknown: the callback reads the zero context, rebuilds the aggregate of
    batch 0 and compares its digest with the zero hash. Whenever that digest
    is not zero the call reverts with [StateMismatch], and storage is left as
    it was. *)
Theorem unknown_request_fails_with_StateMismatch
  e s requestId cleartexts proof :
  decryptionContexts s !! requestId = None ->
  snd (callback_aggregate e s 0) <> 0 ->
  myCallback e s requestId cleartexts proof = Revert StateMismatch /\
  exec e s (MyCallback requestId cleartexts proof) = (s, []).
Proof.
  intros Hnone Hdigest.
  assert (myCallback e s requestId cleartexts proof = Revert StateMismatch) as Hcall.
  { rewrite myCallback_unknown by done.
    destruct (snd (callback_aggregate e s 0) =? 0) eqn:Hz; [|done].
    apply Z.eqb_eq in Hz. done. }
  split; [done|]. by apply exec_revert with StateMismatch.
Qed.

(** C5 (as amended). After a successful [closeBatch] and as long as no
    [openBatch] has gone through, a [submitReputation] that passes the
    provider, pause and cooldown gates reverts with [BatchNotOpen] and the
    ledger keeps its entries. *)
Theorem closure_freezes_admission s e0 s1 evs txs e ct :
  reachable s ->
  closeBatch e0 s = Ok (s1, evs) ->
  no_successful_open s1 txs = true ->
  submission_gates e (run s1 txs) = Ok tt ->
  submitReputation e (run s1 txs) ct = Revert BatchNotOpen /\
  submissions (fst (exec e (run s1 txs) (SubmitReputation ct))) =
    submissions (run s1 txs).
Proof.
  intros Hreach Hclose Hno Hgates.
  assert (all_closed (run s1 txs)) as Hall.
  { apply all_closed_run; [|done].
    eapply closeBatch_all_closed; [|done]. by apply reachable_closed_elsewhere. }
  pose proof (submit_rejected_all_closed e _ ct Hall Hgates) as Hsub.
  split; [done|].
  by rewrite (exec_revert e _ (SubmitReputation ct) BatchNotOpen).
Qed.

(** C6. A callback for a context whose [processed] flag is set reverts with
    [ReplayAttempt]; storage is unchanged and nothing is emitted. The flag,
    once set, stays set: across every transaction that is not a disclosure
    request, and across every transaction at all from a reachable state. *)
Theorem replay_rejected e s requestId cleartexts proof :
  DecryptionContext.processed (contextOf s requestId) = true ->
  myCallback e s requestId cleartexts proof = Revert ReplayAttempt /\
  exec e s (MyCallback requestId cleartexts proof) = (s, []) /\
  (forall e' c,
     reachable s \/ is_request c = false ->
     DecryptionContext.processed (contextOf (fst (exec e' s c)) requestId) = true).
Proof.
  intros Hproc. pose proof (myCallback_replay e s requestId cleartexts proof Hproc).
  split; [done|]. split.
  - by apply exec_revert with ReplayAttempt.
  - intros e' c [Hreach|Hc]; apply processed_kept; auto.
    left. by apply reachable_closed_elsewhere.
Qed.

(** C7. On one ledger state and batch id the loop of [requestBatchDecryption]
    and the loop of [myCallback] build the same two handles and the same
    digest, and both are the aggregate the specification describes: the first
    matching entry seeds the sum, later ones are added in ledger order, the
    average is the sum times the encoded inverse of the submission count. The
    request reverts instead when nothing matches. The digest depends on the
    call only through the contract's own address. *)
Theorem aggregation_idempotent e s batchId :
  request_aggregate e s batchId =
    match aggregate_spec e s batchId with
    | Some r => Ok r
    | None => Revert (ErrorString "No submissions found for batch")
    end /\
  (forall r e', this e' = this e ->
     request_aggregate e s batchId = Ok r -> callback_aggregate e' s batchId = r) /\
  (forall r, aggregate_spec e s batchId = Some r -> callback_aggregate e s batchId = r).
Proof.
  split; [apply request_aggregate_spec|]. split.
  - intros r e' Hthis Hreq. rewrite request_aggregate_spec in Hreq.
    destruct (aggregate_spec e s batchId) as [r'|] eqn:Hspec; [|done].
    injection Hreq as ->. apply callback_aggregate_spec.
    unfold aggregate_spec in *. by rewrite Hthis.
  - apply callback_aggregate_spec.
Qed.

(** C8. With [deadline = lastSubmissionTime[p] + cooldownSeconds] a [uint256],
    provider [p] passes the submission cooldown at [now = deadline] (and the
    submission goes through when the current batch is open, the handle is
    initialized and the counter has room), and reverts with [CooldownActive]
    at [now = deadline - 1]. The same boundary holds for disclosure requests
    against [lastDecryptionRequestTime[p]], and neither check reads the other
    action's timestamp. *)
Theorem cooldown_boundary s p a :
  providerOf s p = true ->
  paused s = false ->
  let submitDeadline := lastSubmissionOf s p + cooldownSeconds s in
  let requestDeadline := lastDecryptionRequestOf s p + cooldownSeconds s in
  (submitDeadline <= MAX_UINT256 ->
     checkSubmissionCooldown (mkEnv p submitDeadline a) s p = Ok tt /\
     (forall ct,
        ReputationBatch.isOpen (batchOf s (currentBatchId s)) = true ->
        isInitialized ct = true ->
        ReputationBatch.submissionCount (batchOf s (currentBatchId s)) + 1
          <= MAX_UINT256 ->
        exists s' evs,
          submitReputation (mkEnv p submitDeadline a) s ct = Ok (s', evs) /\
          submissions s' =
            submissions s ++ [ReputationSubmission.mk ct p (currentBatchId s)] /\
          lastSubmissionOf s' p = submitDeadline) /\
     checkSubmissionCooldown (mkEnv p (submitDeadline - 1) a) s p
       = Revert CooldownActive /\
     (forall ct,
        submitReputation (mkEnv p (submitDeadline - 1) a) s ct
          = Revert CooldownActive)) /\
  (requestDeadline <= MAX_UINT256 ->
     checkDecryptionCooldown (mkEnv p requestDeadline a) s p = Ok tt /\
     decryption_gates (mkEnv p requestDeadline a) s = Ok tt /\
     checkDecryptionCooldown (mkEnv p (requestDeadline - 1) a) s p
       = Revert CooldownActive /\
     (forall batchId,
        requestBatchDecryption (mkEnv p (requestDeadline - 1) a) s batchId
          = Revert CooldownActive)) /\
  (forall e times,
     checkSubmissionCooldown e (set_lastDecryptionRequestTime s times) p
       = checkSubmissionCooldown e s p /\
     checkDecryptionCooldown e (set_lastSubmissionTime s times) p
       = checkDecryptionCooldown e s p).
Proof.
  intros Hprov Hpause submitDeadline requestDeadline. split; [|split].
  - intros Hrange.
    assert (checkSubmissionCooldown (mkEnv p submitDeadline a) s p = Ok tt) as Hat.
    { unfold checkSubmissionCooldown, checked_add, bind. fold submitDeadline.
      destruct (submitDeadline <=? MAX_UINT256) eqn:Hle; [|lia]. simpl.
      by rewrite Z.ltb_irrefl. }
    assert (checkSubmissionCooldown (mkEnv p (submitDeadline - 1) a) s p
            = Revert CooldownActive) as Hbefore.
    { unfold checkSubmissionCooldown, checked_add, bind. fold submitDeadline.
      destruct (submitDeadline <=? MAX_UINT256) eqn:Hle; [|lia]. simpl.
      destruct (submitDeadline - 1 <? submitDeadline) eqn:Hlt; [done|lia]. }
    repeat split; try done.
    + intros ct Hopen Hinit Hroom. unfold submitReputation, onlyProvider, whenNotPaused.
      cbn [msg_sender]. rewrite Hprov, Hpause, Hat. cbn [negb bind].
      rewrite Hopen, Hinit. cbn [negb].
      unfold checked_add at 1.
      change (batchOf (set_submissions s ?v) ?id) with (batchOf s id).
      cbn [currentBatchId set_submissions].
      destruct (_ + 1 <=? MAX_UINT256) eqn:Hle; [|lia]. cbn [bind].
      do 2 eexists. split; [reflexivity|]. split; [done|].
      unfold lastSubmissionOf. cbn. by rewrite lookup_insert_eq.
    + intros ct. unfold submitReputation, onlyProvider, whenNotPaused.
      cbn [msg_sender]. by rewrite Hprov, Hpause, Hbefore.
  - intros Hrange.
    assert (checkDecryptionCooldown (mkEnv p requestDeadline a) s p = Ok tt) as Hat.
    { unfold checkDecryptionCooldown, checked_add, bind. fold requestDeadline.
      destruct (requestDeadline <=? MAX_UINT256) eqn:Hle; [|lia]. simpl.
      by rewrite Z.ltb_irrefl. }
    assert (checkDecryptionCooldown (mkEnv p (requestDeadline - 1) a) s p
            = Revert CooldownActive) as Hbefore.
    { unfold checkDecryptionCooldown, checked_add, bind. fold requestDeadline.
      destruct (requestDeadline <=? MAX_UINT256) eqn:Hle; [|lia]. simpl.
      destruct (requestDeadline - 1 <? requestDeadline) eqn:Hlt; [done|lia]. }
    repeat split; try done.
    + unfold decryption_gates, onlyProvider, whenNotPaused.
      cbn [msg_sender]. by rewrite Hprov, Hpause, Hat.
    + intros batchId. unfold requestBatchDecryption, onlyProvider, whenNotPaused.
      cbn [msg_sender]. by rewrite Hprov, Hpause, Hbefore.
  - done.
Qed.

(** C9. A callback that succeeds writes one thing: the [processed] flag of
    the context of its request id, from false to true. Batches, ledger,
    pointer, roles, pause switch, cooldown fields, oracle storage and every
    other context are as before; the decoded total and average appear only in
    the [DecryptionCompleted] event. *)
Theorem callback_frame e s requestId cleartexts proof s' evs :
  myCallback e s requestId cleartexts proof = Ok (s', evs) ->
  DecryptionContext.processed (contextOf s requestId) = false /\
  contextOf s' requestId =
    DecryptionContext.with_processed (contextOf s requestId) true /\
  (forall other, other <> requestId ->
     decryptionContexts s' !! other = decryptionContexts s !! other) /\
  batches s' = batches s /\
  submissions s' = submissions s /\
  currentBatchId s' = currentBatchId s /\
  owner s' = owner s /\
  isProvider s' = isProvider s /\
  lastSubmissionTime s' = lastSubmissionTime s /\
  lastDecryptionRequestTime s' = lastDecryptionRequestTime s /\
  cooldownSeconds s' = cooldownSeconds s /\
  paused s' = paused s /\
  oracle s' = oracle s /\
  exists total average,
    abi_decode_uint32 cleartexts = Ok total /\
    abi_decode_uint32 (drop 32 cleartexts) = Ok average /\
    evs = [DecryptionCompleted requestId
             (DecryptionContext.batchId (contextOf s requestId)) total average].
Proof.
  intros Hcall.
  apply myCallback_success in Hcall
    as (Hfresh & _ & _ & total & average & Htotal & Havg & -> & ->).
  split; [done|]. split.
  { unfold contextOf at 1. simpl. by rewrite lookup_insert_eq. }
  split.
  { intros other Hother. simpl. by rewrite lookup_insert_ne. }
  repeat (split; [done|]). by exists total, average.
Qed.

(** C10. The constructor makes the deployer the owner, registers the deployer
    as a provider and emits [ProviderAdded]. In that initial state, with no
    [addProvider] call, the deployer passes the gates of [submitReputation]
    and of [requestBatchDecryption] from time 60 on, and a submission made
    right after the deployer's [openBatch] is recorded. *)
Theorem deployer_is_provider e :
  let s0 := fst (constructor e) in
  owner s0 = msg_sender e /\
  providerOf s0 (msg_sender e) = true /\
  snd (constructor e) = [ProviderAdded (msg_sender e)] /\
  (forall e',
     msg_sender e' = msg_sender e ->
     60 <= block_timestamp e' ->
     submission_gates e' s0 = Ok tt /\
     decryption_gates e' s0 = Ok tt /\
     exists s1,
       openBatch e' s0 = Ok (s1, [BatchOpened 1]) /\
       forall ct, isInitialized ct = true ->
         exists s2,
           submitReputation e' s1 ct
             = Ok (s2, [ReputationSubmitted (msg_sender e) 1 0]) /\
           submissions s2 = [ReputationSubmission.mk ct (msg_sender e) 1]).
Proof.
  intros s0.
  assert (providerOf s0 (msg_sender e) = true) as Hprov.
  { unfold providerOf. simpl. by rewrite lookup_insert_eq. }
  assert (forall a, lastSubmissionOf s0 a = 0) as Hsub.
  { intros a. unfold lastSubmissionOf. simpl. by rewrite lookup_empty. }
  assert (forall a, lastDecryptionRequestOf s0 a = 0) as Hreq.
  { intros a. unfold lastDecryptionRequestOf. simpl. by rewrite lookup_empty. }
  do 3 (split; [done|]).
  intros e' Hsender Hnow.
  assert ((block_timestamp e' <? 60) = false) as Hlt by lia.
  assert (submission_gates e' s0 = Ok tt) as Hgates.
  { unfold submission_gates, onlyProvider, whenNotPaused, checkSubmissionCooldown,
      checked_add, bind. rewrite Hsender, Hprov, Hsub. simpl.
    change (0 + 60) with 60. by rewrite Hlt. }
  split; [done|]. split.
  { unfold decryption_gates, onlyProvider, whenNotPaused, checkDecryptionCooldown,
      checked_add, bind. rewrite Hsender, Hprov, Hreq. simpl.
    change (0 + 60) with 60. by rewrite Hlt. }
  eexists. split.
  - unfold openBatch, onlyOwner, whenNotPaused, bind. simpl.
    rewrite Hsender, Z.eqb_refl. simpl. reflexivity.
  - intros ct Hinit.
    unfold submitReputation, onlyProvider, whenNotPaused, checkSubmissionCooldown,
      checked_add, providerOf, lastSubmissionOf, batchOf, bind. simpl.
    rewrite Hsender, !lookup_insert_eq, lookup_empty. simpl.
    change (0 + 60) with 60. rewrite Hlt, Hinit. simpl.
    eexists. split; reflexivity.
Qed.

End Properties.

(** ** The admission test of [requestBatchDecryption] on reachable states *)

Section Admission.

Context {P : Capabilities}.

(** C1. The claim does not hold of the code: in every reachable state a
    caller who passes the provider, pause and cooldown gates has every batch
    id rejected with [InvalidBatch], the id of the current, open, non-empty
    batch included (line 170 refuses [batchId >= currentBatchId], and every
    batch below the pointer is closed). *)
Theorem request_rejected_in_reachable_states e s batchId :
  reachable s ->
  decryption_gates e s = Ok tt ->
  requestBatchDecryption e s batchId = Revert InvalidBatch.
Proof.
  intros Hreach Hgates. apply request_rejected; [|done].
  by apply reachable_closed_elsewhere.
Qed.

End Admission.

(** ** Concrete runs of the contract *)

Section Runs.

Import Fake Scenario.

Local Existing Instance capabilities.

Lemma reachable_play txs : reachable (play txs).
Proof. apply reachable_run. apply (reachable_deploy (at_time 1 0)). Qed.

(** Witness of C1: after [openBatch] and one submission, batch 1 is the
    current batch, it is open and counts one submission, the deployer passes
    the three gates at time 200, and the request for batch 1 reverts with
    [InvalidBatch]. *)
Lemma request_rejected_in_reachable_states_witness :
  reachable submitted /\
  decryption_gates (at_time 1 200) submitted = Ok tt /\
  currentBatchId submitted = 1 /\
  ReputationBatch.isOpen (batchOf submitted 1) = true /\
  ReputationBatch.submissionCount (batchOf submitted 1) = 1 /\
  requestBatchDecryption (at_time 1 200) submitted 1 = Revert InvalidBatch.
Proof.
  assert (reachable submitted) as Hreach by apply reachable_play.
  assert (decryption_gates (at_time 1 200) submitted = Ok tt) as Hgates
    by (vm_compute; reflexivity).
  split; [exact Hreach|]. split; [exact Hgates|].
  split; [vm_compute; reflexivity|]. split; [vm_compute; reflexivity|].
  split; [vm_compute; reflexivity|].
  exact (request_rejected_in_reachable_states (at_time 1 200) submitted 1
           Hreach Hgates).
Defined.

(** C2. The claim does not hold of the code: [openBatch] has no test on the
    batch it overwrites. Opening batch 1, submitting once and calling
    [openBatch] again is a reachable run after which batch 1 counts 0
    submissions while the ledger holds one entry for it; the counter went from
    1 down to 0. *)
Theorem reopening_resets_submission_count :
  reachable reopened /\
  ReputationBatch.submissionCount (batchOf submitted 1) = 1 /\
  ledgerCount submitted 1 = 1 /\
  step (at_time 1 150) submitted OpenBatch
    = Ok (reopened, [BatchOpened 1]) /\
  ReputationBatch.submissionCount (batchOf reopened 1) = 0 /\
  ledgerCount reopened 1 = 1.
Proof.
  split; [apply reachable_play|].
  repeat split; vm_compute; reflexivity.
Qed.

(** Counterexample to C3: on the freshly deployed contract no context
    exists for request id 7, and the callback for it reverts with
    [StateMismatch], the error of the digest comparison, having rebuilt the
    aggregate of batch 0 and found its digest different from the zero hash. *)
Lemma unknown_request_reaches_digest_comparison :
  decryptionContexts deployed !! 7 = None /\
  snd (callback_aggregate (at_time 9 50) deployed 0)
    <> DecryptionContext.stateHash (contextOf deployed 7) /\
  myCallback (at_time 9 50) deployed 7 cleartexts [Byte.x01] = Revert StateMismatch.
Proof.
  split; [vm_compute; reflexivity|].
  split; [vm_compute; discriminate|].
  vm_compute; reflexivity.
Qed.

(** Witness of C3 (as amended), on the freshly deployed contract. *)
Lemma unknown_request_fails_with_StateMismatch_witness :
  decryptionContexts deployed !! 7 = None /\
  snd (callback_aggregate (at_time 9 50) deployed 0) <> 0 /\
  myCallback (at_time 9 50) deployed 7 cleartexts [Byte.x01] = Revert StateMismatch /\
  exec (at_time 9 50) deployed (MyCallback 7 cleartexts [Byte.x01]) = (deployed, []).
Proof.
  assert (decryptionContexts deployed !! 7 = None) as Hnone
    by (vm_compute; reflexivity).
  assert (snd (callback_aggregate (at_time 9 50) deployed 0) <> 0) as Hdigest
    by (vm_compute; discriminate).
  split; [exact Hnone|]. split; [exact Hdigest|].
  exact (unknown_request_fails_with_StateMismatch (at_time 9 50) deployed 7
           cleartexts [Byte.x01] Hnone Hdigest).
Defined.


(** Counterexample to C5: after [openBatch] and [closeBatch] the deployer
    passes the gates at time 200 and the submission reverts with
    [BatchNotOpen], which is not [InvalidBatch]. *)
Lemma submit_after_close_is_BatchNotOpen :
  closeBatch (at_time 1 110) opened = Ok (closed, [BatchClosed 1]) /\
  submission_gates (at_time 1 200) closed = Ok tt /\
  submitReputation (at_time 1 200) closed (enc 10) = Revert BatchNotOpen /\
  submitReputation (at_time 1 200) closed (enc 10) <> Revert InvalidBatch.
Proof.
  split; [vm_compute; reflexivity|]. split; [vm_compute; reflexivity|].
  split; [vm_compute; reflexivity|]. vm_compute; discriminate.
Qed.

(** Witness of C5 (as amended): after the close the owner adds provider 2,
    provider 2 tries [openBatch] (refused: not the owner), then submits. *)
Lemma closure_freezes_admission_witness :
  let txs := [(at_time 1 120, AddProvider 2); (at_time 2 130, OpenBatch)] in
  reachable opened /\
  closeBatch (at_time 1 110) opened = Ok (closed, [BatchClosed 1]) /\
  no_successful_open closed txs = true /\
  submission_gates (at_time 2 200) (run closed txs) = Ok tt /\
  submitReputation (at_time 2 200) (run closed txs) (enc 10) = Revert BatchNotOpen /\
  submissions (fst (exec (at_time 2 200) (run closed txs) (SubmitReputation (enc 10))))
    = submissions (run closed txs).
Proof.
  intros txs.
  assert (reachable opened) as Hreach by apply reachable_play.
  assert (closeBatch (at_time 1 110) opened = Ok (closed, [BatchClosed 1])) as Hclose
    by (vm_compute; reflexivity).
  assert (no_successful_open closed txs = true) as Hno
    by (vm_compute; reflexivity).
  assert (submission_gates (at_time 2 200) (run closed txs) = Ok tt) as Hgates
    by (vm_compute; reflexivity).
  split; [exact Hreach|]. split; [exact Hclose|]. split; [exact Hno|].
  split; [exact Hgates|].
  exact (closure_freezes_admission opened (at_time 1 110) closed [BatchClosed 1]
           txs (at_time 2 200) (enc 10) Hreach Hclose Hno Hgates).
Defined.

(** Witness of C6: the context of request 0 has been processed; the oracle
    calls back a second time. *)
Lemma replay_rejected_witness :
  DecryptionContext.processed (contextOf completed 0) = true /\
  myCallback (at_time 9 500) completed 0 cleartexts [Byte.x01]
    = Revert ReplayAttempt /\
  exec (at_time 9 500) completed (MyCallback 0 cleartexts [Byte.x01])
    = (completed, []) /\
  DecryptionContext.processed
    (contextOf (fst (exec (at_time 1 600) completed CloseBatch)) 0) = true.
Proof.
  assert (DecryptionContext.processed (contextOf completed 0) = true) as Hproc
    by (vm_compute; reflexivity).
  destruct (replay_rejected (at_time 9 500) completed 0 cleartexts [Byte.x01] Hproc)
    as (Hcall & Hexec & Hkept).
  split; [exact Hproc|]. split; [exact Hcall|]. split; [exact Hexec|].
  apply (Hkept (at_time 1 600) CloseBatch). right. reflexivity.
Defined.

(** Witness of C7: providers 1, 2 and 3 submitted 10, 20 and 30 into batch
    1; sum and average are the handles of 60 and 20. *)
Lemma aggregation_idempotent_witness :
  aggregate_spec (at_time 1 200) three_providers 1
    = Some ([enc 60; enc 20], digest [enc 60; enc 20] 4096) /\
  request_aggregate (at_time 1 200) three_providers 1
    = Ok ([enc 60; enc 20], digest [enc 60; enc 20] 4096) /\
  callback_aggregate (at_time 9 400) three_providers 1
    = ([enc 60; enc 20], digest [enc 60; enc 20] 4096).
Proof.
  assert (aggregate_spec (at_time 1 200) three_providers 1
          = Some ([enc 60; enc 20], digest [enc 60; enc 20] 4096)) as Hspec
    by (vm_compute; reflexivity).
  destruct (aggregation_idempotent (at_time 1 200) three_providers 1)
    as (Hreq & Hcallback & _).
  rewrite Hspec in Hreq.
  split; [exact Hspec|]. split; [exact Hreq|].
  apply (Hcallback _ (at_time 9 400)); [reflexivity|exact Hreq].
Defined.

(** Witness of C8: the deployer submitted at time 100 and the cooldown is 60
    seconds, so the deadline is 160; no request was ever made, so the request
    deadline is 60. *)
Lemma cooldown_boundary_witness :
  providerOf submitted 1 = true /\
  paused submitted = false /\
  lastSubmissionOf submitted 1 + cooldownSeconds submitted = 160 /\
  lastDecryptionRequestOf submitted 1 + cooldownSeconds submitted = 60 /\
  checkSubmissionCooldown (mkEnv 1 160 4096) submitted 1 = Ok tt /\
  checkSubmissionCooldown (mkEnv 1 159 4096) submitted 1 = Revert CooldownActive /\
  submitReputation (mkEnv 1 159 4096) submitted (enc 20) = Revert CooldownActive /\
  (exists s' evs,
     submitReputation (mkEnv 1 160 4096) submitted (enc 20) = Ok (s', evs)) /\
  checkDecryptionCooldown (mkEnv 1 60 4096) submitted 1 = Ok tt /\
  requestBatchDecryption (mkEnv 1 59 4096) submitted 1 = Revert CooldownActive.
Proof.
  assert (providerOf submitted 1 = true) as Hprov by (vm_compute; reflexivity).
  assert (paused submitted = false) as Hpause by (vm_compute; reflexivity).
  assert (lastSubmissionOf submitted 1 + cooldownSeconds submitted <= MAX_UINT256)
    as Hsubmit by (vm_compute; discriminate).
  assert (lastDecryptionRequestOf submitted 1 + cooldownSeconds submitted
          <= MAX_UINT256) as Hrequest by (vm_compute; discriminate).
  destruct (cooldown_boundary submitted 1 4096 Hprov Hpause)
    as (Hsub & Hreq & _).
  destruct (Hsub Hsubmit) as (Hat & Hgo & Hbefore & Hrefused).
  destruct (Hreq Hrequest) as (Hrat & _ & _ & Hrrefused).
  destruct (Hgo (enc 20)) as (s' & evs & Hok & _);
    [vm_compute; reflexivity | vm_compute; reflexivity
    | vm_compute; discriminate |].
  split; [exact Hprov|]. split; [exact Hpause|].
  split; [vm_compute; reflexivity|]. split; [vm_compute; reflexivity|].
  split; [exact Hat|]. split; [exact Hbefore|].
  split; [exact (Hrefused (enc 20))|].
  split; [exists s', evs; exact Hok|].
  split; [exact Hrat|]. exact (Hrrefused 1).
Defined.

(** Witness of C9: the oracle answers request 0 with total 60 and average
    20. *)
Lemma callback_frame_witness :
  myCallback (at_time 9 400) requested 0 cleartexts [Byte.x01]
    = Ok (completed, [DecryptionCompleted 0 1 60 20]) /\
  DecryptionContext.processed (contextOf requested 0) = false /\
  contextOf completed 0
    = DecryptionContext.with_processed (contextOf requested 0) true /\
  batches completed = batches requested /\
  submissions completed = submissions requested.
Proof.
  assert (myCallback (at_time 9 400) requested 0 cleartexts [Byte.x01]
          = Ok (completed, [DecryptionCompleted 0 1 60 20])) as Hcall
    by (vm_compute; reflexivity).
  destruct (callback_frame (at_time 9 400) requested 0 cleartexts [Byte.x01]
              completed [DecryptionCompleted 0 1 60 20] Hcall)
    as (Hfresh & Hctx & _ & Hbatches & Hledger & _).
  split; [exact Hcall|]. split; [exact Hfresh|]. split; [exact Hctx|].
  split; [exact Hbatches|exact Hledger].
Defined.

(** Witness of C10: the deployer, address 1, acts at time 100. *)
Lemma deployer_is_provider_witness :
  owner deployed = 1 /\
  providerOf deployed 1 = true /\
  submission_gates (at_time 1 100) deployed = Ok tt /\
  decryption_gates (at_time 1 100) deployed = Ok tt /\
  exists s2,
    submitReputation (at_time 1 100) opened (enc 10)
      = Ok (s2, [ReputationSubmitted 1 1 0]).
Proof.
  destruct (deployer_is_provider (at_time 1 0))
    as (Howner & Hprov & _ & Hcalls).
  destruct (Hcalls (at_time 1 100)) as (Hsub & Hreq & s1 & Hopen & Hgo);
    [reflexivity | vm_compute; discriminate |].
  destruct (Hgo (enc 10)) as (s2 & Hok & _); [vm_compute; reflexivity|].
  split; [exact Howner|]. split; [exact Hprov|].
  split; [exact Hsub|]. split; [exact Hreq|].
  exists s2.
  assert (s1 = opened) as <-; [|exact Hok].
  assert (openBatch (at_time 1 100) deployed = Ok (opened, [BatchOpened 1])) as Hopened
    by (vm_compute; reflexivity).
  unfold deployed in Hopened. rewrite Hopen in Hopened. by injection Hopened.
Defined.

End Runs.

(** * Roles, pause switch and administration *)

Section Administration.

Context {P : Capabilities}.

Ltac unfold_admin :=
  unfold transferOwnership, addProvider, removeProvider, setCooldownSeconds,
    pause, unpause, openBatch, closeBatch, submitReputation,
    requestBatchDecryption, onlyOwner, onlyProvider, whenNotPaused, bind.

Lemma not_owner_rejected e s c :
  is_owner_only c = true -> msg_sender e <> owner s -> step e s c = Revert NotOwner.
Proof.
  intros Hc Hne. assert ((msg_sender e =? owner s) = false) as Hneq by lia.
  destruct c; try done; simpl; unfold_admin; by rewrite Hneq.
Qed.

Lemma set_paused_back s : paused s = false -> set_paused (set_paused s true) false = s.
Proof. destruct s. simpl. by intros ->. Qed.

(** X1. Every function under [onlyOwner] reverts with [NotOwner] for a
    caller who is not the owner, whatever the pause switch and the arguments,
    and storage is left as it was. *)
Theorem owner_only_rejects_strangers e s c :
  is_owner_only c = true ->
  msg_sender e <> owner s ->
  step e s c = Revert NotOwner /\ exec e s c = (s, []).
Proof.
  intros Hc Hne. pose proof (not_owner_rejected e s c Hc Hne) as Hstep.
  split; [done|]. by apply exec_revert with NotOwner.
Qed.

(** X2. A caller without the provider flag gets [NotProvider] from
    [submitReputation] and from [requestBatchDecryption], before the pause
    switch, the cooldown or the batch is looked at. *)
Theorem provider_only_rejects_strangers e s :
  providerOf s (msg_sender e) = false ->
  (forall ct, submitReputation e s ct = Revert NotProvider) /\
  (forall batchId, requestBatchDecryption e s batchId = Revert NotProvider).
Proof.
  intros Hprov. split; intros; unfold_admin; by rewrite Hprov.
Qed.

(** X3. While the contract is paused, every function under [whenNotPaused]
    ([pause], [openBatch], [closeBatch], [submitReputation],
    [requestBatchDecryption]) reverts with [PausedState] for a caller who
    holds the role it asks for. *)
Theorem pause_blocks_guarded_calls e s c :
  paused s = true ->
  is_pausable c = true ->
  authorized e s c = true ->
  step e s c = Revert PausedState.
Proof.
  intros Hpaused Hc Hauth.
  destruct c; try done; simpl in *; unfold_admin; by rewrite Hauth, Hpaused.
Qed.

(** X4. [pause] followed by [unpause], both by the owner, gives back the
    very state [pause] started from; a second [pause] reverts with
    [PausedState], and [unpause] on a contract that is not paused reverts with
    the message "Contract not paused". *)
Theorem pause_unpause_round_trip e e' s :
  msg_sender e = owner s ->
  msg_sender e' = owner s ->
  paused s = false ->
  exists s1,
    pause e s = Ok (s1, [Paused (msg_sender e)]) /\
    paused s1 = true /\
    pause e' s1 = Revert PausedState /\
    unpause e' s1 = Ok (s, [Unpaused (msg_sender e')]) /\
    unpause e s = Revert (ErrorString "Contract not paused").
Proof.
  intros He He' Hpaused. exists (set_paused s true).
  unfold pause, unpause, onlyOwner, whenNotPaused, bind. simpl.
  rewrite He, He', Z.eqb_refl, Hpaused. simpl.
  rewrite set_paused_back by done. done.
Qed.

(** X5. [addProvider] by the owner sets the flag of that address and of no
    other; on an address that already has the flag it changes nothing and
    emits nothing. [removeProvider] clears the flag, keeps the address's
    recorded submission time, and from then on the address gets
    [NotProvider] from [submitReputation]; removing it again changes nothing
    and emits nothing. *)
Theorem addProvider_removeProvider e s p :
  msg_sender e = owner s ->
  exists s1 evs1,
    addProvider e s p = Ok (s1, evs1) /\
    providerOf s1 p = true /\
    (forall q, q <> p -> providerOf s1 q = providerOf s q) /\
    (providerOf s p = true -> s1 = s /\ evs1 = []) /\
    (providerOf s p = false -> evs1 = [ProviderAdded p]) /\
    exists s2,
      removeProvider e s1 p = Ok (s2, [ProviderRemoved p]) /\
      providerOf s2 p = false /\
      (forall q, q <> p -> providerOf s2 q = providerOf s q) /\
      lastSubmissionOf s2 p = lastSubmissionOf s p /\
      (forall e' ct, msg_sender e' = p ->
         submitReputation e' s2 ct = Revert NotProvider) /\
      removeProvider e s2 p = Ok (s2, []).
Proof.
  intros He.
  assert (exists s1 evs1,
            addProvider e s p = Ok (s1, evs1) /\
            owner s1 = owner s /\
            lastSubmissionTime s1 = lastSubmissionTime s /\
            providerOf s1 p = true /\
            (forall q, q <> p -> providerOf s1 q = providerOf s q) /\
            (providerOf s p = true -> s1 = s /\ evs1 = []) /\
            (providerOf s p = false -> evs1 = [ProviderAdded p]))
    as (s1 & evs1 & Hadd & Howner & Htimes & Hflag & Hothers & Hsame & Hnew).
  { unfold addProvider, onlyOwner, bind. rewrite He, Z.eqb_refl. simpl.
    destruct (providerOf s p) eqn:Hp; simpl.
    - exists s, []. repeat split; done.
    - eexists _, _. split; [reflexivity|]. repeat split; try done.
      + unfold providerOf. simpl. by rewrite lookup_insert_eq.
      + intros q Hq. unfold providerOf. simpl. by rewrite lookup_insert_ne. }
  exists s1, evs1. do 5 (split; [done|]).
  exists (set_isProvider s1 (<[p := false]> (isProvider s1))).
  assert (providerOf (set_isProvider s1 (<[p := false]> (isProvider s1))) p = false)
    as Hgone.
  { unfold providerOf. simpl. by rewrite lookup_insert_eq. }
  repeat split.
  - unfold removeProvider, onlyOwner, bind. rewrite He, Howner, Z.eqb_refl. simpl.
    by rewrite Hflag.
  - done.
  - intros q Hq. rewrite <- Hothers by done.
    unfold providerOf. simpl. by rewrite lookup_insert_ne.
  - unfold lastSubmissionOf. simpl. by rewrite Htimes.
  - intros e' ct He'. unfold submitReputation, onlyProvider, bind.
    by rewrite He', Hgone.
  - unfold removeProvider, onlyOwner, bind. simpl.
    rewrite He, Howner, Z.eqb_refl. simpl. by rewrite Hgone.
Qed.

(** X6. [transferOwnership] by the owner refuses the zero address with the
    message "New owner is the zero address"; for any other address it only
    replaces the owner. The provider flags are not touched, so the new owner
    is a provider only if it was one already, and a former owner that differs
    from the new one is refused by every owner-only function. *)
Theorem transferOwnership_hands_over e s newOwner :
  msg_sender e = owner s ->
  (newOwner = 0 ->
     transferOwnership e s newOwner
       = Revert (ErrorString "New owner is the zero address")) /\
  (newOwner <> 0 ->
     transferOwnership e s newOwner
       = Ok (set_owner s newOwner, [OwnershipTransferred (owner s) newOwner]) /\
     (forall a, providerOf (set_owner s newOwner) a = providerOf s a) /\
     (newOwner <> owner s ->
        forall c, is_owner_only c = true ->
          step e (set_owner s newOwner) c = Revert NotOwner)).
Proof.
  intros He. unfold transferOwnership, onlyOwner, bind.
  rewrite He, Z.eqb_refl. simpl. split.
  - by intros ->.
  - intros Hnz. assert ((newOwner =? 0) = false) as -> by lia.
    repeat split. intros Hother c Hc. apply not_owner_rejected; [done|].
    simpl. congruence.
Qed.

End Administration.

(** * Batch lifecycle and ledger *)

Section Lifecycle.

Context {P : Capabilities}.

Ltac unfold_all :=
  unfold transferOwnership, addProvider, removeProvider, setCooldownSeconds,
    pause, unpause, openBatch, closeBatch, submitReputation,
    requestBatchDecryption, requestBatchDecryption_body, myCallback,
    onlyOwner, onlyProvider, whenNotPaused, checkSubmissionCooldown,
    checkDecryptionCooldown, checked_add, bind in *.

Ltac split_call :=
  unfold_all; repeat (case_match; simplify_eq; try done).

Lemma pointer_step e s c :
  currentBatchId (fst (exec e s c)) = currentBatchId s \/
  (c = CloseBatch /\ currentBatchId (fst (exec e s c)) = currentBatchId s + 1).
Proof.
  destruct (exec_cases e s c) as [(s' & evs & Hok & ->)|(err & _ & ->)];
    [simpl|by left].
  destruct c; simpl in Hok; split_call; auto.
Qed.

Lemma ledger_step e s c :
  submissions (fst (exec e s c)) = submissions s \/
  exists ct, c = SubmitReputation ct /\
    submissions (fst (exec e s c)) =
      submissions s ++ [ReputationSubmission.mk ct (msg_sender e) (currentBatchId s)].
Proof.
  destruct (exec_cases e s c) as [(s' & evs & Hok & ->)|(err & _ & ->)];
    [simpl|by left].
  destruct c; simpl in Hok; split_call; eauto.
Qed.

Lemma batches_step e s c id :
  id <> currentBatchId s -> batchOf (fst (exec e s c)) id = batchOf s id.
Proof.
  intros Hid.
  destruct (exec_cases e s c) as [(s' & evs & Hok & ->)|(err & _ & ->)];
    [simpl|done].
  destruct c; simpl in Hok; split_call; unfold batchOf; simpl;
    by rewrite lookup_insert_ne.
Qed.

(** X7. The batch pointer never goes down: a transaction leaves it where it
    is, except a successful [closeBatch], which advances it by exactly one. *)
Theorem currentBatchId_never_decreases s txs :
  currentBatchId s <= currentBatchId (run s txs) /\
  (forall e c,
     currentBatchId (fst (exec e s c)) = currentBatchId s \/
     (c = CloseBatch /\ currentBatchId (fst (exec e s c)) = currentBatchId s + 1)).
Proof.
  split; [|intros; apply pointer_step].
  revert s. induction txs as [|[e c] rest IH]; intros s; simpl; [lia|].
  specialize (IH (fst (exec e s c))).
  destruct (pointer_step e s c) as [Heq|[_ Heq]]; lia.
Qed.

(** X8. The ledger is append-only: whatever transactions run, the entries
    present before are still there, in the same order and unchanged, at the
    front of the ledger; one transaction adds at most one entry, and only a
    successful [submitReputation] adds one. *)
Theorem ledger_append_only s txs :
  submissions s `prefix_of` submissions (run s txs) /\
  (forall e c,
     submissions (fst (exec e s c)) = submissions s \/
     exists ct, c = SubmitReputation ct /\
       submissions (fst (exec e s c)) =
         submissions s ++
         [ReputationSubmission.mk ct (msg_sender e) (currentBatchId s)]).
Proof.
  split; [|intros; apply ledger_step].
  revert s. induction txs as [|[e c] rest IH]; intros s; simpl; [done|].
  specialize (IH (fst (exec e s c))).
  destruct (ledger_step e s c) as [Heq|(ct & _ & Heq)]; rewrite Heq in IH.
  - done.
  - etrans; [|exact IH]. by apply prefix_app_r.
Qed.

(** X9. A batch below the pointer is frozen: no sequence of transactions
    changes its record (open flag, submission count, id). *)
Theorem batches_below_pointer_frozen s txs id :
  id < currentBatchId s ->
  batchOf (run s txs) id = batchOf s id.
Proof.
  revert s. induction txs as [|[e c] rest IH]; intros s Hid; simpl; [done|].
  rewrite IH.
  - apply batches_step. lia.
  - destruct (pointer_step e s c) as [Heq|[_ Heq]]; lia.
Qed.

(** X10. What a successful [submitReputation] has checked and done: the
    caller is a provider, the contract is not paused, the current batch is
    open and the handle is initialized; one entry (handle, caller, current
    batch id) is appended, that batch's counter goes up by one, the caller's
    submission time becomes the block timestamp, the event carries the index
    of the new entry, and the pointer, the other batches, the roles and the
    contexts stay as they were. *)
Theorem submitReputation_effect e s ct s' evs :
  submitReputation e s ct = Ok (s', evs) ->
  let cur := currentBatchId s in
  providerOf s (msg_sender e) = true /\
  paused s = false /\
  ReputationBatch.isOpen (batchOf s cur) = true /\
  isInitialized ct = true /\
  submissions s' =
    submissions s ++ [ReputationSubmission.mk ct (msg_sender e) cur] /\
  batchOf s' cur =
    ReputationBatch.with_submissionCount (batchOf s cur)
      (ReputationBatch.submissionCount (batchOf s cur) + 1) /\
  (forall id, id <> cur -> batchOf s' id = batchOf s id) /\
  lastSubmissionOf s' (msg_sender e) = block_timestamp e /\
  (forall a, a <> msg_sender e -> lastSubmissionOf s' a = lastSubmissionOf s a) /\
  evs = [ReputationSubmitted (msg_sender e) cur (Z.of_nat (length (submissions s)))] /\
  currentBatchId s' = cur /\
  owner s' = owner s /\
  isProvider s' = isProvider s /\
  decryptionContexts s' = decryptionContexts s.
Proof.
  intros Hcall cur. subst cur. split_call.
  repeat match goal with
         | H : negb _ = false |- _ => apply negb_false_iff in H
         end.
  repeat split; try done.
  - unfold batchOf. simpl. by rewrite lookup_insert_eq.
  - intros id Hid. unfold batchOf. simpl. by rewrite lookup_insert_ne.
  - unfold lastSubmissionOf. simpl. by rewrite lookup_insert_eq.
  - intros a Ha. unfold lastSubmissionOf. simpl. by rewrite lookup_insert_ne.
Qed.

Lemma ledger_initialized_step e s c s' evs :
  ledger_initialized s -> step e s c = Ok (s', evs) -> ledger_initialized s'.
Proof.
  intros Hinv Hstep. unfold ledger_initialized in *.
  destruct c; simpl in Hstep; split_call.
  apply Forall_app. split; [done|]. apply Forall_singleton. simpl.
  unfold _requireInitialized. by case_match.
Qed.

Lemma reachable_ledger_initialized s : reachable s -> ledger_initialized s.
Proof.
  induction 1 as [e|s e c Hs IH].
  - constructor.
  - destruct (exec_cases e s c) as [(s' & evs & Hok & ->)|(err & _ & ->)]; simpl.
    + eapply ledger_initialized_step; eauto.
    + done.
Qed.

(** X11. In every reachable state each ledger entry holds a handle that
    passes [_requireInitialized] and a batch id between 1 and the current
    pointer. *)
Theorem ledger_entries_well_formed s :
  reachable s ->
  Forall (fun sub =>
            _requireInitialized (ReputationSubmission.encryptedReputation sub)
              = Ok tt /\
            1 <= ReputationSubmission.batchId sub <= currentBatchId s)
    (submissions s).
Proof.
  intros Hreach.
  pose proof (reachable_ledger_initialized s Hreach) as Hinit.
  destruct (reachable_ledger_ids_bounded s Hreach) as (_ & Hids & _).
  unfold ledger_initialized in Hinit.
  rewrite Forall_forall in *. intros sub Hsub. split; auto.
Qed.

(** X12. Opening and then closing, with no submission in between: the owner's
    [openBatch] writes a fresh open record with count 0 under the current id
    (also over a record that is already there), and [closeBatch] right after
    closes that empty batch and advances the pointer by one; when the pointer
    is the largest [uint256] the increment overflows and [closeBatch] reverts
    with an arithmetic panic. *)
Theorem open_then_close e s :
  msg_sender e = owner s ->
  paused s = false ->
  let cur := currentBatchId s in
  exists s1,
    openBatch e s = Ok (s1, [BatchOpened cur]) /\
    batchOf s1 cur = ReputationBatch.mk cur true 0 0 /\
    (cur + 1 <= MAX_UINT256 ->
       exists s2,
         closeBatch e s1 = Ok (s2, [BatchClosed cur]) /\
         currentBatchId s2 = cur + 1 /\
         batchOf s2 cur = ReputationBatch.mk cur false 0 0) /\
    (MAX_UINT256 < cur + 1 -> closeBatch e s1 = Revert (Panic 17)).
Proof.
  intros He Hpaused cur. subst cur. eexists. split; [|split; [|split]].
  - unfold openBatch, onlyOwner, whenNotPaused, bind.
    rewrite He, Z.eqb_refl, Hpaused. simpl. reflexivity.
  - unfold batchOf. simpl. by rewrite lookup_insert_eq.
  - intros Hroom. eexists. split; [|split].
    + unfold closeBatch, onlyOwner, whenNotPaused, checked_add, batchOf, bind. simpl.
      rewrite He, Z.eqb_refl, Hpaused, lookup_insert_eq. simpl.
      destruct (_ <=? MAX_UINT256) eqn:Hle; [|lia]. reflexivity.
    + done.
    + unfold batchOf. simpl. by rewrite lookup_insert_eq.
  - intros Hover.
    unfold closeBatch, onlyOwner, whenNotPaused, checked_add, batchOf, bind. simpl.
    rewrite He, Z.eqb_refl, Hpaused, lookup_insert_eq. simpl.
    destruct (_ <=? MAX_UINT256) eqn:Hle; [lia|done].
Qed.

(** X13. In a reachable state, right after a successful [closeBatch] the new
    current batch is not open: a second [closeBatch] by the owner reverts
    with [InvalidBatch], and the owner's [openBatch] opens the next id with
    count 0, leaving the batch just closed as it is. *)
Theorem closeBatch_then_reopen s e0 s1 evs e :
  reachable s ->
  closeBatch e0 s = Ok (s1, evs) ->
  msg_sender e = owner s1 ->
  paused s1 = false ->
  currentBatchId s1 = currentBatchId s + 1 /\
  evs = [BatchClosed (currentBatchId s)] /\
  closeBatch e s1 = Revert InvalidBatch /\
  exists s2,
    openBatch e s1 = Ok (s2, [BatchOpened (currentBatchId s + 1)]) /\
    batchOf s2 (currentBatchId s + 1)
      = ReputationBatch.mk (currentBatchId s + 1) true 0 0 /\
    batchOf s2 (currentBatchId s) = batchOf s1 (currentBatchId s) /\
    ReputationBatch.isOpen (batchOf s2 (currentBatchId s)) = false.
Proof.
  intros Hreach Hclose He Hpaused.
  assert (all_closed s1) as Hall.
  { eapply closeBatch_all_closed; [|done]. by apply reachable_closed_elsewhere. }
  assert (currentBatchId s1 = currentBatchId s + 1 /\
          evs = [BatchClosed (currentBatchId s)]) as [Hptr ->].
  { clear Hall He Hpaused. split_call. }
  split; [done|]. split; [done|]. split.
  - unfold closeBatch, onlyOwner, whenNotPaused, bind.
    rewrite He, Z.eqb_refl, Hpaused. simpl. by rewrite Hall.
  - eexists. split; [|split; [|split]].
    + unfold openBatch, onlyOwner, whenNotPaused, bind.
      rewrite He, Z.eqb_refl, Hpaused, Hptr. simpl. reflexivity.
    + unfold batchOf. simpl. by rewrite lookup_insert_eq.
    + unfold batchOf. simpl. rewrite lookup_insert_ne; [done|lia].
    + unfold batchOf. simpl. rewrite lookup_insert_ne; [|lia]. apply Hall.
Qed.

Lemma batch_records_plain_step e s c s' evs :
  batch_records_plain s -> step e s c = Ok (s', evs) -> batch_records_plain s'.
Proof.
  intros Hinv Hstep id. pose proof (Hinv id) as Hid.
  pose proof (Hinv (currentBatchId s)) as (Hsum & Hcount & Hkey).
  destruct c; simpl in Hstep; split_call; unfold batchOf in *; simpl in *.
  - destruct (decide (id = currentBatchId s)) as [->|Hne].
    + rewrite lookup_insert_eq. simpl. auto with lia.
    + by rewrite lookup_insert_ne.
  - destruct (decide (id = currentBatchId s)) as [->|Hne].
    + rewrite lookup_insert_eq. simpl.
      destruct (batches s !! currentBatchId s) eqn:Hlk; [|done].
      simpl in *. destruct Hkey; [done|]. auto.
    + by rewrite lookup_insert_ne.
  - destruct (decide (id = currentBatchId s)) as [->|Hne].
    + rewrite lookup_insert_eq. simpl.
      destruct (batches s !! currentBatchId s) eqn:Hlk; [|done].
      simpl in *. destruct Hkey; [done|]. repeat split; auto with lia.
    + by rewrite lookup_insert_ne.
Qed.

(** X14. No function ever writes [reputationSum]: in every reachable state
    every batch record has sum 0, a non-negative submission count, and, when
    it was ever written, its own key as [batchId]. *)
Theorem batch_records_stay_plain s : reachable s -> batch_records_plain s.
Proof.
  induction 1 as [e|s e c Hs IH].
  - intros id. unfold batchOf. simpl. rewrite lookup_empty. simpl. auto with lia.
  - destruct (exec_cases e s c) as [(s' & evs & Hok & ->)|(err & _ & ->)]; simpl.
    + eapply batch_records_plain_step; eauto.
    + done.
Qed.

Lemma request_bookkeeping_step e s c s' evs :
  closed_elsewhere s -> step e s c = Ok (s', evs) ->
  lastDecryptionRequestTime s' = lastDecryptionRequestTime s /\
  oracle s' = oracle s /\
  Forall (fun ev => forall requestId batchId,
            ev <> DecryptionRequested requestId batchId) evs.
Proof.
  intros Hclosed Hstep.
  destruct c; simpl in Hstep.
  10: { destruct (request_never_succeeds e s batchId Hclosed) as [err Herr].
        congruence. }
  all: split_call; repeat split; repeat constructor; done.
Qed.

(** X15. In every reachable state the request bookkeeping is untouched: no
    address has a recorded request time and the oracle library's storage is
    the initial one; and no transaction from a reachable state emits
    [DecryptionRequested]. *)
Theorem request_bookkeeping_untouched s :
  reachable s ->
  lastDecryptionRequestTime s = ∅ /\
  oracle s = oracle_init /\
  (forall e c requestId batchId,
     DecryptionRequested requestId batchId ∉ snd (exec e s c)).
Proof.
  intros Hreach.
  assert (lastDecryptionRequestTime s = ∅ /\ oracle s = oracle_init) as [Htimes Horacle].
  { induction Hreach as [e|s e c Hs IH]; [done|].
    destruct (exec_cases e s c) as [(s' & evs & Hok & ->)|(err & _ & ->)]; simpl.
    - destruct IH as [IH1 IH2].
      destruct (request_bookkeeping_step e s c s' evs) as (Ht & Ho & _);
        [by apply reachable_closed_elsewhere | done |].
      by rewrite Ht, Ho.
    - done. }
  split; [done|]. split; [done|].
  intros e c requestId batchId Hin.
  destruct (exec_cases e s c) as [(s' & evs & Hok & Hex)|(err & _ & Hex)];
    rewrite Hex in Hin; simpl in Hin.
  - destruct (request_bookkeeping_step e s c s' evs) as (_ & _ & Hevs);
      [by apply reachable_closed_elsewhere | done |].
    rewrite Forall_forall in Hevs. by eapply Hevs.
  - by apply not_elem_of_nil in Hin.
Qed.


End Lifecycle.

(** * Cooldown, aggregation and callback *)

Section Disclosure.

Context {P : Capabilities}.

Lemma submit_inversion e s ct s' evs :
  submitReputation e s ct = Ok (s', evs) ->
  providerOf s (msg_sender e) = true /\
  paused s = false /\
  ReputationBatch.submissionCount (batchOf s (currentBatchId s)) + 1
    <= MAX_UINT256 /\
  s' = set_lastSubmissionTime
         (set_batches
            (set_submissions s
               (submissions s ++
                [ReputationSubmission.mk ct (msg_sender e) (currentBatchId s)]))
            (<[currentBatchId s :=
                 ReputationBatch.with_submissionCount (batchOf s (currentBatchId s))
                   (ReputationBatch.submissionCount (batchOf s (currentBatchId s)) + 1)]>
               (batches s)))
         (<[msg_sender e := block_timestamp e]> (lastSubmissionTime s)).
Proof.
  intros Hcall.
  unfold submitReputation, onlyProvider, whenNotPaused, checkSubmissionCooldown,
    checked_add, bind in Hcall.
  repeat (case_match; simplify_eq; try done).
  repeat match goal with
         | H : negb _ = false |- _ => apply negb_false_iff in H
         end.
  repeat split; try done.
  match goal with
  | H : (_ <=? MAX_UINT256) = true |- _ => apply Z.leb_le in H; exact H
  end.
Qed.

(** X17. After a successful submission at time [t] the same provider is
    refused with [CooldownActive] at every time before [t + cooldownSeconds]
    (for a deadline within [uint256]); the cooldown of every other address is
    as it was. *)
Theorem cooldown_after_submission e s ct s' evs e' :
  submitReputation e s ct = Ok (s', evs) ->
  msg_sender e' = msg_sender e ->
  block_timestamp e + cooldownSeconds s <= MAX_UINT256 ->
  block_timestamp e' < block_timestamp e + cooldownSeconds s ->
  (forall ct', submitReputation e' s' ct' = Revert CooldownActive) /\
  (forall e'' q, q <> msg_sender e ->
     checkSubmissionCooldown e'' s' q = checkSubmissionCooldown e'' s q).
Proof.
  intros Hcall Hsender Hrange Hearly.
  apply submit_inversion in Hcall as (Hprov & Hpaused & _ & ->).
  split.
  - intros ct'.
    unfold submitReputation, onlyProvider, whenNotPaused, checkSubmissionCooldown,
      checked_add, providerOf, lastSubmissionOf, bind in *. simpl.
    rewrite Hsender, Hprov, Hpaused, lookup_insert_eq. simpl.
    destruct (_ <=? MAX_UINT256) eqn:Hle; [|lia].
    destruct (_ <? _) eqn:Hlt; [done|lia].
  - intros e'' q Hq.
    unfold checkSubmissionCooldown, lastSubmissionOf. simpl.
    by rewrite lookup_insert_ne.
Qed.

(** X18. [setCooldownSeconds] accepts any value and acts on the times
    already recorded. When the owner sets a cooldown that, added to a
    provider's recorded submission time, exceeds [uint256], the cooldown
    check of that provider overflows: each of its submissions reverts with an
    arithmetic panic, at every timestamp. *)
Theorem oversized_cooldown_panics e0 s n e :
  msg_sender e0 = owner s ->
  providerOf s (msg_sender e) = true ->
  paused s = false ->
  MAX_UINT256 < lastSubmissionOf s (msg_sender e) + n ->
  exists s1,
    setCooldownSeconds e0 s n = Ok (s1, [CooldownSet n]) /\
    cooldownSeconds s1 = n /\
    (forall ct, submitReputation e s1 ct = Revert (Panic 17)).
Proof.
  intros He0 Hprov Hpaused Hover. eexists. split; [|split].
  - unfold setCooldownSeconds, onlyOwner, bind. rewrite He0, Z.eqb_refl. reflexivity.
  - done.
  - intros ct.
    unfold submitReputation, onlyProvider, whenNotPaused, checkSubmissionCooldown,
      checked_add, providerOf, lastSubmissionOf, bind in *. simpl.
    rewrite Hprov, Hpaused. simpl.
    destruct (_ <=? MAX_UINT256) eqn:Hle; [lia|done].
Qed.

(** X19. The callback has no gate of its own: its outcome does not depend on
    who calls it nor on the block timestamp, and it runs the same whether or
    not the contract is paused. *)
Theorem callback_is_not_gated e e' s requestId cleartexts proof flag :
  this e' = this e ->
  myCallback e' s requestId cleartexts proof
    = myCallback e s requestId cleartexts proof /\
  myCallback e (set_paused s flag) requestId cleartexts proof
    = match myCallback e s requestId cleartexts proof with
      | Ok (s', evs) => Ok (set_paused s' flag, evs)
      | Revert err => Revert err
      end.
Proof.
  intros Hthis. split.
  - unfold myCallback, callback_aggregate, _hashCiphertexts. by rewrite Hthis.
  - unfold myCallback.
    change (contextOf (set_paused s flag)) with (contextOf s).
    destruct (DecryptionContext.processed (contextOf s requestId)); [done|].
    change (callback_aggregate e (set_paused s flag)) with (callback_aggregate e s).
    destruct (callback_aggregate e s _) as [cts currentHash].
    destruct (negb (currentHash =? _)); [done|].
    destruct (negb (checkSignatures _ _ _)); [done|].
    unfold bind. destruct (abi_decode_uint32 cleartexts); [|done].
    destruct (abi_decode_uint32 (drop 32 cleartexts)); done.
Qed.

(** X20. A submission goes to the current batch only: for every other batch
    id the ciphertext array and digest built by the request and by the
    callback are the same after the submission as before. *)
Theorem submission_leaves_other_aggregates e s ct s' evs e' batchId :
  submitReputation e s ct = Ok (s', evs) ->
  batchId <> currentBatchId s ->
  callback_aggregate e' s' batchId = callback_aggregate e' s batchId /\
  request_aggregate e' s' batchId = request_aggregate e' s batchId.
Proof.
  intros Hcall Hother.
  apply submit_inversion in Hcall as (_ & _ & _ & ->).
  assert (forall t i, callback_loop
            (submissions s ++
             [ReputationSubmission.mk ct (msg_sender e) (currentBatchId s)])
            batchId t i = callback_loop (submissions s) batchId t i) as Hcb.
  { intros t i. destruct i.
    - rewrite !callback_loop_running, matching_snoc. simpl.
      destruct (_ =? _) eqn:Heq; [lia|]. by rewrite app_nil_r.
    - rewrite !callback_loop_fresh, matching_snoc. simpl.
      destruct (_ =? _) eqn:Heq; [lia|]. by rewrite app_nil_r. }
  assert (forall t i, request_loop
            (submissions s ++
             [ReputationSubmission.mk ct (msg_sender e) (currentBatchId s)])
            batchId t i = request_loop (submissions s) batchId t i) as Hrq.
  { intros t i. destruct i.
    - rewrite !request_loop_running, matching_snoc. simpl.
      destruct (_ =? _) eqn:Heq; [lia|]. by rewrite app_nil_r.
    - rewrite !request_loop_fresh, matching_snoc. simpl.
      destruct (_ =? _) eqn:Heq; [lia|]. by rewrite app_nil_r. }
  unfold callback_aggregate, request_aggregate, batchOf. simpl.
  rewrite Hcb, Hrq, lookup_insert_ne by done. done.
Qed.

(** X21. For the current batch a submission extends the encrypted sum by one
    homomorphic addition: the first entry of a batch becomes the sum itself,
    every later one is added to the sum of the entries before it. *)
Theorem submission_extends_sum e s ct s' evs :
  submitReputation e s ct = Ok (s', evs) ->
  let cur := currentBatchId s in
  fst (callback_loop (submissions s') cur 0 false) =
    match matching (submissions s) cur with
    | [] => ct
    | _ :: _ => FHE_add (fst (callback_loop (submissions s) cur 0 false)) ct
    end /\
  request_loop (submissions s') cur 0 false
    = (fst (callback_loop (submissions s') cur 0 false), true).
Proof.
  intros Hcall cur. subst cur.
  apply submit_inversion in Hcall as (_ & _ & _ & ->). simpl.
  rewrite request_loop_fresh, !callback_loop_fresh, matching_snoc. simpl.
  rewrite Z.eqb_refl.
  destruct (matching (submissions s) (currentBatchId s)) as [|seed later]; simpl.
  - done.
  - by rewrite fold_left_app.
Qed.

Lemma be_word_nonneg bs acc : 0 <= acc -> 0 <= fold_left
  (fun acc b => acc * 256 + Z.of_N (Byte.to_N b)) bs acc.
Proof.
  revert acc. induction bs as [|b bs IH]; intros acc Hacc; simpl; [done|].
  apply IH. lia.
Qed.

Lemma abi_decode_uint32_ok payload w :
  abi_decode_uint32 payload = Ok w ->
  (32 <= length payload)%nat /\ 0 <= w <= MAX_UINT32.
Proof.
  unfold abi_decode_uint32. intros Hdec.
  destruct (length payload <? 32)%nat eqn:Hlen; [done|].
  apply Nat.ltb_ge in Hlen.
  destruct (be_word (take 32 payload) <=? MAX_UINT32) eqn:Hw; [|done].
  injection Hdec as <-. split; [done|]. split; [|lia].
  unfold be_word. by apply be_word_nonneg.
Qed.

(** X22. A callback only completes on a payload of at least 64 bytes, and
    the total and average it announces in [DecryptionCompleted] are 32-bit
    values, the two big-endian words at the front of the payload. *)
Theorem callback_payload_bounds e s requestId cleartexts proof s' evs :
  myCallback e s requestId cleartexts proof = Ok (s', evs) ->
  (64 <= length cleartexts)%nat /\
  exists total average,
    evs = [DecryptionCompleted requestId
             (DecryptionContext.batchId (contextOf s requestId)) total average] /\
    total = be_word (take 32 cleartexts) /\
    average = be_word (take 32 (drop 32 cleartexts)) /\
    0 <= total <= MAX_UINT32 /\
    0 <= average <= MAX_UINT32.
Proof.
  intros Hcall.
  apply myCallback_success in Hcall
    as (_ & _ & _ & total & average & Htotal & Havg & _ & ->).
  pose proof (abi_decode_uint32_ok _ _ Htotal) as [Hlen1 Hb1].
  pose proof (abi_decode_uint32_ok _ _ Havg) as [Hlen2 Hb2].
  rewrite length_drop in Hlen2. split; [lia|].
  exists total, average. repeat split; try lia.
  - unfold abi_decode_uint32 in Htotal. repeat case_match; by simplify_eq.
  - unfold abi_decode_uint32 in Havg. repeat case_match; by simplify_eq.
Qed.

(** X23. The context that lines 172-212 of [requestBatchDecryption] store is
    one the callback accepts: the request emits [DecryptionRequested] for the
    id the oracle handed out, stores the batch id with the digest of the
    aggregate and [processed = false], stamps the caller's request time and
    leaves ledger and batches alone; a callback for that id on the resulting
    state, from the same contract address, with a payload that decodes and a
    proof that checks, completes and sets [processed]. *)
Theorem request_context_accepted
  e s batchId s1 evs e' cleartexts proof total average :
  requestBatchDecryption_body e s batchId = Ok (s1, evs) ->
  this e' = this e ->
  checkSignatures (fst (requestDecryption (oracle s)
                          (fst (callback_aggregate e s batchId))))
    cleartexts proof = true ->
  abi_decode_uint32 cleartexts = Ok total ->
  abi_decode_uint32 (drop 32 cleartexts) = Ok average ->
  let requestId :=
    fst (requestDecryption (oracle s) (fst (callback_aggregate e s batchId))) in
  evs = [DecryptionRequested requestId batchId] /\
  contextOf s1 requestId
    = DecryptionContext.mk batchId (snd (callback_aggregate e s batchId)) false /\
  submissions s1 = submissions s /\
  batches s1 = batches s /\
  lastDecryptionRequestOf s1 (msg_sender e) = block_timestamp e /\
  ReputationBatch.submissionCount (batchOf s batchId) <> 0 /\
  exists s2,
    myCallback e' s1 requestId cleartexts proof
      = Ok (s2, [DecryptionCompleted requestId batchId total average]) /\
    DecryptionContext.processed (contextOf s2 requestId) = true.
Proof.
  intros Hbody Hthis Hsig Htotal Havg requestId. subst requestId.
  unfold requestBatchDecryption_body, bind in Hbody.
  destruct (_ =? 0) eqn:Hcount; [done|].
  destruct (request_aggregate e s batchId) as [[cts digest]|] eqn:Hagg; [|done].
  assert (callback_aggregate e s batchId = (cts, digest)) as Hcb.
  { rewrite request_aggregate_spec in Hagg.
    destruct (aggregate_spec e s batchId) eqn:Hspec; [|done].
    injection Hagg as ->. by apply callback_aggregate_spec. }
  rewrite Hcb in *. simpl in *.
  destruct (requestDecryption (oracle s) cts) as [requestId oracle'] eqn:Hreq.
  injection Hbody as <- <-. simpl in *.
  assert (forall s0, contextOf
            (set_lastDecryptionRequestTime
               (set_decryptionContexts (set_oracle s oracle')
                  (<[requestId := DecryptionContext.mk batchId digest false]>
                     (decryptionContexts s)))
               s0) requestId = DecryptionContext.mk batchId digest false) as Hctx.
  { intros s0. unfold contextOf. simpl. by rewrite lookup_insert_eq. }
  repeat split; try done.
  - unfold lastDecryptionRequestOf. simpl. by rewrite lookup_insert_eq.
  - lia.
  - eexists. unfold myCallback. rewrite Hctx. simpl.
    match goal with
    | |- context [callback_aggregate e' ?st batchId] =>
        change (callback_aggregate e' st batchId)
          with (callback_aggregate e' s batchId)
    end.
    assert (callback_aggregate e' s batchId = (cts, digest)) as ->.
    { unfold callback_aggregate, _hashCiphertexts in *. by rewrite Hthis. }
    rewrite Z.eqb_refl, Hsig. simpl. unfold bind. rewrite Htotal, Havg.
    split.
    + unfold contextOf at 1. simpl. rewrite lookup_insert_eq. simpl. reflexivity.
    + unfold contextOf. simpl. by rewrite lookup_insert_eq.
Qed.

Lemma owner_step e s c : owner s <> 0 -> owner (fst (exec e s c)) <> 0.
Proof.
  intros Hnz.
  destruct (exec_cases e s c) as [(s' & evs & Hok & ->)|(err & _ & ->)];
    [simpl|done].
  destruct c; simpl in Hok;
    unfold transferOwnership, addProvider, removeProvider, setCooldownSeconds,
      pause, unpause, openBatch, closeBatch, submitReputation,
      requestBatchDecryption, requestBatchDecryption_body, myCallback,
      onlyOwner, onlyProvider, whenNotPaused, checkSubmissionCooldown,
      checkDecryptionCooldown, checked_add, bind in Hok;
    repeat (case_match; simplify_eq; try done); simpl; lia.
Qed.

(** X24. Ownership cannot be given up: deployed by a non-zero address, the
    contract has a non-zero owner after every sequence of transactions. *)
Theorem owner_never_zero e txs :
  msg_sender e <> 0 ->
  owner (run (fst (constructor e)) txs) <> 0.
Proof.
  intros Hdeployer.
  assert (owner (fst (constructor e)) <> 0) as Hinit by done.
  revert Hinit. generalize (fst (constructor e)).
  induction txs as [|[e' c] rest IH]; intros s Hs; simpl; [done|].
  apply IH. by apply owner_step.
Qed.

Lemma count_matches_run s txs :
  (forall id, ReputationBatch.submissionCount (batchOf s id) = ledgerCount s id) ->
  opens_only_unused s txs = true ->
  forall id,
    ReputationBatch.submissionCount (batchOf (run s txs) id)
      = ledgerCount (run s txs) id.
Proof.
  revert s. induction txs as [|[e c] rest IH]; intros s Hinv Hopens; [done|].
  cbn [run opens_only_unused] in *.
  destruct (exec_cases e s c) as [(s' & evs & Hok & Hex)|(err & Herr & Hex)];
    rewrite Hex in *; cbn [fst] in *.
  - apply IH.
    + eapply count_matches_ledger_step; [exact Hinv| |exact Hok].
      intros ->. rewrite Hok in Hopens.
      apply andb_true_iff in Hopens as [Hzero _]. lia.
    + destruct c; try done. rewrite Hok in Hopens.
      by apply andb_true_iff in Hopens as [_ Hrest].
  - apply IH; [done|]. destruct c; try done. by rewrite Herr in Hopens.
Qed.

(** X25. As long as [openBatch] is only called on a batch id the ledger has
    no entry for, every batch's [submissionCount] equals the number of ledger
    entries with that batch id, after every run from deployment; without
    that proviso it is never larger than that number. *)
Theorem submission_count_matches_ledger e txs :
  let s := run (fst (constructor e)) txs in
  (forall id, ReputationBatch.submissionCount (batchOf s id) <= ledgerCount s id) /\
  (opens_only_unused (fst (constructor e)) txs = true ->
   forall id, ReputationBatch.submissionCount (batchOf s id) = ledgerCount s id).
Proof.
  intros s. split.
  - apply reachable_count_below_ledger. apply reachable_run. constructor.
  - intros Hopens. apply count_matches_run; [|done].
    intros id. unfold batchOf, ledgerCount. simpl. by rewrite lookup_empty.
Qed.

End Disclosure.

(** * The further properties on concrete runs *)

Section FurtherRuns.

Import Fake Scenario Walkthrough.

Local Existing Instance capabilities.

(** Witness of X1: address 5 calls [openBatch] on the fresh contract. *)
Lemma owner_only_rejects_strangers_witness :
  is_owner_only OpenBatch = true /\
  msg_sender (at_time 5 100) <> owner deployed /\
  step (at_time 5 100) deployed OpenBatch = Revert NotOwner /\
  exec (at_time 5 100) deployed OpenBatch = (deployed, []).
Proof.
  assert (msg_sender (at_time 5 100) <> owner deployed) as Hne
    by (vm_compute; discriminate).
  split; [reflexivity|]. split; [exact Hne|].
  exact (owner_only_rejects_strangers (at_time 5 100) deployed OpenBatch
           eq_refl Hne).
Defined.

(** Witness of X2: address 5 is no provider of the contract with batch 1
    open. *)
Lemma provider_only_rejects_strangers_witness :
  providerOf opened (msg_sender (at_time 5 100)) = false /\
  submitReputation (at_time 5 100) opened (enc 10) = Revert NotProvider /\
  requestBatchDecryption (at_time 5 100) opened 1 = Revert NotProvider.
Proof.
  assert (providerOf opened (msg_sender (at_time 5 100)) = false) as Hprov
    by (vm_compute; reflexivity).
  destruct (provider_only_rejects_strangers (at_time 5 100) opened Hprov)
    as [Hsubmit Hrequest].
  split; [exact Hprov|]. split; [exact (Hsubmit (enc 10))|exact (Hrequest 1)].
Defined.

(** Witness of X3: the owner tries to close the batch of the paused
    contract. *)
Lemma pause_blocks_guarded_calls_witness :
  paused halted = true /\
  is_pausable CloseBatch = true /\
  authorized (at_time 1 200) halted CloseBatch = true /\
  step (at_time 1 200) halted CloseBatch = Revert PausedState.
Proof.
  assert (paused halted = true) as Hpaused by (vm_compute; reflexivity).
  assert (authorized (at_time 1 200) halted CloseBatch = true) as Hauth
    by (vm_compute; reflexivity).
  split; [exact Hpaused|]. split; [reflexivity|]. split; [exact Hauth|].
  exact (pause_blocks_guarded_calls (at_time 1 200) halted CloseBatch
           Hpaused eq_refl Hauth).
Defined.

(** Witness of X4: the owner pauses at 200 and unpauses at 300. *)
Lemma pause_unpause_round_trip_witness :
  msg_sender (at_time 1 200) = owner opened /\
  paused opened = false /\
  exists s1,
    pause (at_time 1 200) opened = Ok (s1, [Paused 1]) /\
    unpause (at_time 1 300) s1 = Ok (opened, [Unpaused 1]).
Proof.
  assert (msg_sender (at_time 1 200) = owner opened) as He
    by (vm_compute; reflexivity).
  assert (msg_sender (at_time 1 300) = owner opened) as He'
    by (vm_compute; reflexivity).
  assert (paused opened = false) as Hpaused by (vm_compute; reflexivity).
  destruct (pause_unpause_round_trip (at_time 1 200) (at_time 1 300) opened
              He He' Hpaused) as (s1 & Hpause & _ & _ & Hunpause & _).
  split; [exact He|]. split; [exact Hpaused|].
  exists s1. split; [exact Hpause|exact Hunpause].
Defined.

(** Witness of X5: the owner adds and removes address 2. *)
Lemma addProvider_removeProvider_witness :
  msg_sender (at_time 1 10) = owner deployed /\
  exists s1 s2,
    addProvider (at_time 1 10) deployed 2 = Ok (s1, [ProviderAdded 2]) /\
    providerOf s1 2 = true /\
    removeProvider (at_time 1 10) s1 2 = Ok (s2, [ProviderRemoved 2]) /\
    providerOf s2 2 = false /\
    submitReputation (at_time 2 100) s2 (enc 10) = Revert NotProvider.
Proof.
  assert (msg_sender (at_time 1 10) = owner deployed) as He
    by (vm_compute; reflexivity).
  destruct (addProvider_removeProvider (at_time 1 10) deployed 2 He)
    as (s1 & evs1 & Hadd & Hflag & _ & _ & Hnew & s2 & Hremove & Hgone & _ & _
        & Hrefused & _).
  rewrite Hnew in Hadd by (vm_compute; reflexivity).
  split; [exact He|]. exists s1, s2.
  split; [exact Hadd|]. split; [exact Hflag|]. split; [exact Hremove|].
  split; [exact Hgone|]. exact (Hrefused (at_time 2 100) (enc 10) eq_refl).
Defined.

(** Witness of X6: the deployer hands the contract to address 2 and is then
    refused [openBatch]; address 2 did not become a provider. *)
Lemma transferOwnership_hands_over_witness :
  msg_sender (at_time 1 50) = owner deployed /\
  transferOwnership (at_time 1 50) deployed 0
    = Revert (ErrorString "New owner is the zero address") /\
  transferOwnership (at_time 1 50) deployed 2
    = Ok (set_owner deployed 2, [OwnershipTransferred 1 2]) /\
  providerOf (set_owner deployed 2) 2 = false /\
  step (at_time 1 50) (set_owner deployed 2) OpenBatch = Revert NotOwner.
Proof.
  assert (msg_sender (at_time 1 50) = owner deployed) as He
    by (vm_compute; reflexivity).
  destruct (transferOwnership_hands_over (at_time 1 50) deployed 0 He)
    as [Hzero _].
  destruct (transferOwnership_hands_over (at_time 1 50) deployed 2 He)
    as [_ Hgo].
  destruct Hgo as (Hcall & Hflags & Hformer); [discriminate|].
  split; [exact He|]. split; [exact (Hzero eq_refl)|]. split; [exact Hcall|].
  split.
  - rewrite Hflags. vm_compute; reflexivity.
  - apply Hformer; [vm_compute; discriminate|reflexivity].
Defined.

(** Witness of X9: with batch 1 closed, batch 2 is opened and receives a
    submission; the record of batch 1 does not move. *)
Lemma batches_below_pointer_frozen_witness :
  let txs := [(at_time 1 120, OpenBatch);
              (at_time 1 130, SubmitReputation (enc 10));
              (at_time 1 140, CloseBatch)] in
  1 < currentBatchId closed /\
  batchOf (run closed txs) 1 = batchOf closed 1.
Proof.
  intros txs.
  assert (1 < currentBatchId closed) as Hbelow by (vm_compute; reflexivity).
  split; [exact Hbelow|].
  exact (batches_below_pointer_frozen closed txs 1 Hbelow).
Defined.

(** Witness of X10: the deployer's first submission into batch 1. *)
Lemma submitReputation_effect_witness :
  submitReputation (at_time 1 100) opened (enc 10)
    = Ok (submitted, [ReputationSubmitted 1 1 0]) /\
  submissions submitted
    = submissions opened ++ [ReputationSubmission.mk (enc 10) 1 1] /\
  lastSubmissionOf submitted 1 = 100 /\
  ReputationBatch.submissionCount (batchOf submitted 1)
    = ReputationBatch.submissionCount (batchOf opened 1) + 1.
Proof.
  assert (submitReputation (at_time 1 100) opened (enc 10)
          = Ok (submitted, [ReputationSubmitted 1 1 0])) as Hcall
    by (vm_compute; reflexivity).
  destruct (submitReputation_effect (at_time 1 100) opened (enc 10) submitted
              [ReputationSubmitted 1 1 0] Hcall)
    as (_ & _ & _ & _ & Hledger & Hbatch & _ & Htime & _).
  split; [exact Hcall|]. split; [exact Hledger|]. split; [exact Htime|].
  exact (f_equal ReputationBatch.submissionCount Hbatch).
Defined.

(** Witness of X11: the ledger after three providers submitted. *)
Lemma ledger_entries_well_formed_witness :
  reachable three_providers /\
  Forall (fun sub =>
            _requireInitialized (ReputationSubmission.encryptedReputation sub)
              = Ok tt /\
            1 <= ReputationSubmission.batchId sub <= currentBatchId three_providers)
    (submissions three_providers).
Proof.
  assert (reachable three_providers) as Hreach by apply reachable_play.
  split; [exact Hreach|]. exact (ledger_entries_well_formed three_providers Hreach).
Defined.

(** Witness of X12: the deployer opens batch 1 and closes it empty. *)
Lemma open_then_close_witness :
  msg_sender (at_time 1 100) = owner deployed /\
  paused deployed = false /\
  exists s1 s2,
    openBatch (at_time 1 100) deployed = Ok (s1, [BatchOpened 1]) /\
    closeBatch (at_time 1 100) s1 = Ok (s2, [BatchClosed 1]) /\
    currentBatchId s2 = 2 /\
    batchOf s2 1 = ReputationBatch.mk 1 false 0 0.
Proof.
  assert (msg_sender (at_time 1 100) = owner deployed) as He
    by (vm_compute; reflexivity).
  assert (paused deployed = false) as Hpaused by (vm_compute; reflexivity).
  destruct (open_then_close (at_time 1 100) deployed He Hpaused)
    as (s1 & Hopen & _ & Hclose & _).
  destruct Hclose as (s2 & Hclosed & Hptr & Hrecord); [vm_compute; discriminate|].
  split; [exact He|]. split; [exact Hpaused|]. exists s1, s2.
  split; [exact Hopen|]. split; [exact Hclosed|]. split; [exact Hptr|exact Hrecord].
Defined.

(** Witness of X13: batch 1 was opened and closed; the owner tries to close
    again, then opens batch 2. *)
Lemma closeBatch_then_reopen_witness :
  reachable opened /\
  closeBatch (at_time 1 110) opened = Ok (closed, [BatchClosed 1]) /\
  closeBatch (at_time 1 200) closed = Revert InvalidBatch /\
  exists s2,
    openBatch (at_time 1 200) closed = Ok (s2, [BatchOpened 2]) /\
    ReputationBatch.isOpen (batchOf s2 1) = false.
Proof.
  assert (reachable opened) as Hreach by apply reachable_play.
  assert (closeBatch (at_time 1 110) opened = Ok (closed, [BatchClosed 1])) as Hclose
    by (vm_compute; reflexivity).
  destruct (closeBatch_then_reopen opened (at_time 1 110) closed [BatchClosed 1]
              (at_time 1 200) Hreach Hclose)
    as (_ & _ & Hagain & s2 & Hopen & _ & _ & Hstill);
    [vm_compute; reflexivity | vm_compute; reflexivity |].
  split; [exact Hreach|]. split; [exact Hclose|]. split; [exact Hagain|].
  exists s2. split; [exact Hopen|exact Hstill].
Defined.

(** Witness of X14: batch 1 after three submissions. *)
Lemma batch_records_stay_plain_witness :
  reachable three_providers /\
  ReputationBatch.reputationSum (batchOf three_providers 1) = 0 /\
  ReputationBatch.submissionCount (batchOf three_providers 1) = 3.
Proof.
  assert (reachable three_providers) as Hreach by apply reachable_play.
  destruct (batch_records_stay_plain three_providers Hreach 1) as (Hsum & _ & _).
  split; [exact Hreach|]. split; [exact Hsum|vm_compute; reflexivity].
Defined.

(** Witness of X15: after the refused request of the drift run. *)
Lemma request_bookkeeping_untouched_witness :
  reachable drifted /\
  lastDecryptionRequestTime drifted = ∅ /\
  oracle drifted = 0.
Proof.
  assert (reachable drifted) as Hreach by apply reachable_play.
  destruct (request_bookkeeping_untouched drifted Hreach) as (Htimes & Horacle & _).
  split; [exact Hreach|]. split; [exact Htimes|exact Horacle].
Defined.


(** Witness of X17: the deployer submitted at 100 with a cooldown of 60 and
    tries again at 159; provider 2 is not affected. *)
Lemma cooldown_after_submission_witness :
  submitReputation (at_time 1 100) opened (enc 10)
    = Ok (submitted, [ReputationSubmitted 1 1 0]) /\
  submitReputation (at_time 1 159) submitted (enc 20) = Revert CooldownActive /\
  checkSubmissionCooldown (at_time 2 101) submitted 2
    = checkSubmissionCooldown (at_time 2 101) opened 2.
Proof.
  assert (submitReputation (at_time 1 100) opened (enc 10)
          = Ok (submitted, [ReputationSubmitted 1 1 0])) as Hcall
    by (vm_compute; reflexivity).
  destruct (cooldown_after_submission (at_time 1 100) opened (enc 10) submitted
              [ReputationSubmitted 1 1 0] (at_time 1 159) Hcall eq_refl)
    as [Hrefused Hothers];
    [vm_compute; discriminate | vm_compute; reflexivity |].
  split; [exact Hcall|]. split; [exact (Hrefused (enc 20))|].
  apply Hothers. vm_compute; discriminate.
Defined.

(** Witness of X18: the deployer submitted at 100, the owner sets the
    cooldown to the largest [uint256]; a submission a billion seconds later
    panics. *)
Lemma oversized_cooldown_panics_witness :
  MAX_UINT256 < lastSubmissionOf submitted 1 + MAX_UINT256 /\
  setCooldownSeconds (at_time 1 120) submitted MAX_UINT256
    = Ok (locked, [CooldownSet MAX_UINT256]) /\
  submitReputation (at_time 1 1000000000) locked (enc 20) = Revert (Panic 17).
Proof.
  assert (MAX_UINT256 < lastSubmissionOf submitted (msg_sender (at_time 1 1000000000))
                        + MAX_UINT256) as Hover by (vm_compute; reflexivity).
  destruct (oversized_cooldown_panics (at_time 1 120) submitted MAX_UINT256
              (at_time 1 1000000000))
    as (s1 & Hset & _ & Hpanic);
    [vm_compute; reflexivity | vm_compute; reflexivity
    | vm_compute; reflexivity | exact Hover |].
  assert (s1 = locked) as ->.
  { assert (setCooldownSeconds (at_time 1 120) submitted MAX_UINT256
            = Ok (locked, [CooldownSet MAX_UINT256])) as Hlocked
      by (vm_compute; reflexivity).
    rewrite Hset in Hlocked. by injection Hlocked. }
  split; [exact Hover|]. split; [exact Hset|exact (Hpanic (enc 20))].
Defined.

(** Witness of X19: the pending request 0 is answered by address 9, or by
    address 5 much later, or while the contract is paused. *)
Lemma callback_is_not_gated_witness :
  myCallback (at_time 5 99999) requested 0 cleartexts [Byte.x01]
    = myCallback (at_time 9 400) requested 0 cleartexts [Byte.x01] /\
  myCallback (at_time 9 400) (set_paused requested true) 0 cleartexts [Byte.x01]
    = Ok (set_paused completed true, [DecryptionCompleted 0 1 60 20]).
Proof.
  destruct (callback_is_not_gated (at_time 9 400) (at_time 5 99999) requested 0
              cleartexts [Byte.x01] true eq_refl) as [Hcaller Hpaused].
  split; [exact Hcaller|].
  rewrite Hpaused. vm_compute; reflexivity.
Defined.

(** Witness of X20: batch 1 holds one entry and is closed, batch 2 is opened
    and receives a submission; the aggregate of batch 1 is the same before
    and after. *)
Lemma submission_leaves_other_aggregates_witness :
  let before := play (open_and_submit ++ [(at_time 1 110, CloseBatch);
                                          (at_time 1 120, OpenBatch)]) in
  exists after evs,
    submitReputation (at_time 1 200) before (enc 20) = Ok (after, evs) /\
    1 <> currentBatchId before /\
    callback_aggregate (at_time 9 300) after 1
      = callback_aggregate (at_time 9 300) before 1.
Proof.
  intros before.
  destruct (submitReputation (at_time 1 200) before (enc 20))
    as [[after evs]|err] eqn:Hcall; [|vm_compute in Hcall; discriminate Hcall].
  assert (1 <> currentBatchId before) as Hother by (vm_compute; discriminate).
  destruct (submission_leaves_other_aggregates (at_time 1 200) before (enc 20)
              after evs (at_time 9 300) 1 Hcall Hother) as [Hcb _].
  exists after, evs. split; [reflexivity|]. split; [exact Hother|exact Hcb].
Defined.

(** Witness of X21: the second submission into batch 1 makes the sum the
    homomorphic addition of the two handles. *)
Lemma submission_extends_sum_witness :
  exists s' evs,
    submitReputation (at_time 1 160) submitted (enc 20) = Ok (s', evs) /\
    fst (callback_loop (submissions s') 1 0 false) = add (enc 10) (enc 20).
Proof.
  destruct (submitReputation (at_time 1 160) submitted (enc 20))
    as [[s' evs]|err] eqn:Hcall; [|vm_compute in Hcall; discriminate Hcall].
  destruct (submission_extends_sum (at_time 1 160) submitted (enc 20) s' evs Hcall)
    as [Hsum _].
  exists s', evs. split; [reflexivity|].
  change (currentBatchId submitted) with 1 in Hsum.
  rewrite Hsum. vm_compute; reflexivity.
Defined.

(** Witness of X22: the oracle's answer to request 0 is 64 bytes long and
    announces 60 and 20. *)
Lemma callback_payload_bounds_witness :
  myCallback (at_time 9 400) requested 0 cleartexts [Byte.x01]
    = Ok (completed, [DecryptionCompleted 0 1 60 20]) /\
  (64 <= length cleartexts)%nat /\
  be_word (take 32 cleartexts) = 60 /\
  be_word (take 32 (drop 32 cleartexts)) = 20.
Proof.
  assert (myCallback (at_time 9 400) requested 0 cleartexts [Byte.x01]
          = Ok (completed, [DecryptionCompleted 0 1 60 20])) as Hcall
    by (vm_compute; reflexivity).
  destruct (callback_payload_bounds (at_time 9 400) requested 0 cleartexts
              [Byte.x01] completed [DecryptionCompleted 0 1 60 20] Hcall)
    as (Hlen & total & average & Hevs & Htotal & Havg & _).
  injection Hevs as Htotal' Havg'.
  split; [exact Hcall|]. split; [exact Hlen|].
  split; congruence.
Defined.

(** Witness of X23: the request for batch 1 on the ledger of three
    providers, answered with total 60 and average 20. *)
Lemma request_context_accepted_witness :
  exists s1,
    requestBatchDecryption_body (at_time 1 200) three_providers 1
      = Ok (s1, [DecryptionRequested 0 1]) /\
    exists s2,
      myCallback (at_time 9 400) s1 0 cleartexts [Byte.x01]
        = Ok (s2, [DecryptionCompleted 0 1 60 20]) /\
      DecryptionContext.processed (contextOf s2 0) = true.
Proof.
  destruct (requestBatchDecryption_body (at_time 1 200) three_providers 1)
    as [[s1 evs]|err] eqn:Hbody; [|vm_compute in Hbody; discriminate Hbody].
  destruct (request_context_accepted (at_time 1 200) three_providers 1 s1 evs
              (at_time 9 400) cleartexts [Byte.x01] 60 20 Hbody eq_refl)
    as (Hevs & _ & _ & _ & _ & _ & s2 & Hcallback & Hdone);
    [vm_compute; reflexivity | vm_compute; reflexivity
    | vm_compute; reflexivity |].
  exists s1. split.
  - rewrite Hevs. reflexivity.
  - exists s2. split; [exact Hcallback|exact Hdone].
Defined.

(** Witness of X24: the deployer 1 hands over to 2, who hands over to 3. *)
Lemma owner_never_zero_witness :
  msg_sender (at_time 1 0) <> 0 /\
  owner (run deployed [(at_time 1 50, TransferOwnership 2);
                       (at_time 2 60, TransferOwnership 0);
                       (at_time 2 70, TransferOwnership 3)]) <> 0.
Proof.
  assert (msg_sender (at_time 1 0) <> 0) as Hdeployer by (vm_compute; discriminate).
  split; [exact Hdeployer|].
  exact (owner_never_zero (at_time 1 0) _ Hdeployer).
Defined.

(** Witness of X25: three submissions into batch 1, opened once. *)
Lemma submission_count_matches_ledger_witness :
  let txs := [(at_time 1 10, AddProvider 2);
              (at_time 1 20, AddProvider 3);
              (at_time 1 100, OpenBatch);
              (at_time 1 100, SubmitReputation (enc 10));
              (at_time 2 101, SubmitReputation (enc 20));
              (at_time 3 102, SubmitReputation (enc 30))] in
  opens_only_unused deployed txs = true /\
  ReputationBatch.submissionCount (batchOf (run deployed txs) 1)
    = ledgerCount (run deployed txs) 1.
Proof.
  intros txs.
  assert (opens_only_unused deployed txs = true) as Hopens
    by (vm_compute; reflexivity).
  destruct (submission_count_matches_ledger (at_time 1 0) txs) as [_ Heq].
  split; [exact Hopens|]. exact (Heq Hopens 1).
Defined.

End FurtherRuns.
